(** * typhoon_ocr_runner.py: a model of the OCR command-line runner

    The script [backend/src/scripts/typhoon_ocr_runner.py] resolves its
    parameters from [sys.argv] and [os.environ], calls the external
    [typhoon_ocr.ocr_document] once, and reports through standard output,
    standard error and the exit status.

    Python [str] values are sequences of Unicode code points; they are
    modelled as [list N].  The built-ins the script relies on ([int] on a
    [str], [repr] in the message of its [ValueError], [print],
    [json.dumps]) follow CPython; what depends on the interpreter's
    configuration or on its Unicode database is a field of [Interpreter].

    The external capability is a function from the keyword arguments to
    what the call does: return a string, raise an instance of [Exception],
    or let through an exception that is none ([SystemExit],
    [KeyboardInterrupt], ...), which the guard of the script does not
    catch.  Every call is logged.  The streams hold the text written to
    [sys.stdout] and [sys.stderr].  The import of [typhoon_ocr] is taken
    to succeed. *)

From Stdlib Require Import ZArith NArith Ascii String List Lia Bool.
From stdpp Require Import gmap strings list fin_maps.

Local Open Scope N_scope.

(** ** Python strings *)

Abbreviation str := (list N).

(** An ASCII literal of the source, as a sequence of code points. *)
Definition lit (s : string) : str := map N_of_ascii (list_ascii_of_string s).

Definition QUOTE : N := 34.
Definition APOSTROPHE : N := 39.
Definition BACKSLASH : N := 92.
Definition LF : N := 10.

(** [Py_hexdigits]: lowercase hexadecimal digit of a value below 16. *)
Definition hexdigit (d : N) : N := if d <? 10 then 48 + d else 87 + d.

(** The [n] low hexadecimal digits of [c], most significant first
    ([%02x], [%04x], [%08x] on values that fit). *)
Fixpoint hex (n : nat) (c : N) : str :=
  match n with
  | O => []
  | S n' => hex n' (N.shiftr c 4) ++ [hexdigit (N.land c 15)]
  end.

(** [%d] on a non-negative value: its decimal digits.  A number has no
    more digits than its value plus one, which bounds the recursion. *)
Fixpoint decimal_digits (fuel : nat) (n : N) : str :=
  match fuel with
  | O => []
  | S fuel' =>
      if n <? 10 then [48 + n]
      else decimal_digits fuel' (n / 10) ++ [48 + n mod 10]
  end.

Definition format_d (n : N) : str := decimal_digits (S (N.to_nat n)) n.

(** ** The interpreter

    [max_str_digits] is [sys.get_int_max_str_digits()] (4300 unless
    configured otherwise, 0 for no limit).  The interpreter fixes it when
    it starts, from its option [-X int_max_str_digits] or else from the
    variable [PYTHONINTMAXSTRDIGITS] of the environment it is started in;
    the script never changes it.  An [Interpreter] is thus the interpreter
    as started: what is stated of two runs under different environments
    takes an interpreter for each.  The three tables are the Unicode
    database's [Py_UNICODE_ISSPACE], [Py_UNICODE_TODECIMAL] and
    [Py_UNICODE_ISPRINTABLE]; the script only reaches them on non-ASCII
    code points. *)
Record Interpreter := {
  max_str_digits : N;
  unicode_isspace : N -> bool;
  unicode_todecimal : N -> option N;
  unicode_isprintable : N -> bool
}.

(** [sys.int_info.str_digits_check_threshold]: shorter digit strings are
    never checked against the limit. *)
Definition str_digits_check_threshold : N := 640.
Definition default_max_str_digits : N := 4300.

(** ** Exceptions

    The instances of [Exception], which the top-level [except Exception]
    clause catches.  [ExternalError msg] is an exception raised inside
    [ocr_document] whose [str()] is [msg]. *)
Inductive exception :=
| ValueError (msg : str)
| IndexError (msg : str)
| ExternalError (msg : str).

(** [str(exc)] *)
Definition exc_str (e : exception) : str :=
  match e with
  | ValueError msg | IndexError msg | ExternalError msg => msg
  end.

(** What unwinds the stack: an instance of [Exception], or an exception
    that is none ([SystemExit], [KeyboardInterrupt],
    [asyncio.CancelledError]).  The clause [except Exception] lets the
    latter through; the interpreter then ends the process, and the model
    keeps what it does: the exit status (the code of a [SystemExit], the
    status after a traceback) and the text it writes to standard error. *)
Inductive raised :=
| Error (e : exception)
| Escape (status : Z) (err : str).

(** ** [repr] of a [str] (CPython's [unicode_repr]) *)

Definition repr_quote (s : str) : N :=
  if existsb (N.eqb APOSTROPHE) s && negb (existsb (N.eqb QUOTE) s)
  then QUOTE else APOSTROPHE.

Definition repr_char (py : Interpreter) (quote ch : N) : str :=
  if (ch =? quote) || (ch =? BACKSLASH) then [BACKSLASH; ch]
  else if ch =? 9 then lit "\t"
  else if ch =? 10 then lit "\n"
  else if ch =? 13 then lit "\r"
  else if (ch <? 32) || (ch =? 127) then lit "\x" ++ hex 2 ch
  else if ch <? 127 then [ch]
  else if unicode_isprintable py ch then [ch]
  else if ch <=? 255 then lit "\x" ++ hex 2 ch
  else if ch <=? 65535 then lit "\u" ++ hex 4 ch
  else lit "\U" ++ hex 8 ch.

Definition repr (py : Interpreter) (s : str) : str :=
  let quote := repr_quote s in
  [quote] ++ flat_map (repr_char py quote) s ++ [quote].

(** ** [int(s)] for a [str] argument, base 10
    (CPython's [PyLong_FromUnicodeObject] and [PyLong_FromString]) *)

Definition is_ascii (ch : N) : bool := ch <? 128.

(** [_PyUnicode_TransformDecimalAndSpaceToASCII]: an ASCII string is taken
    as it is; otherwise non-ASCII spaces become [' '], non-ASCII decimal
    digits their ASCII digit, and the buffer is cut after a ['?'] at the
    first code point that is neither. *)
Fixpoint transform_chars (py : Interpreter) (u : str) : str :=
  match u with
  | [] => []
  | ch :: u' =>
      if ch <? 127 then ch :: transform_chars py u'
      else if unicode_isspace py ch then 32 :: transform_chars py u'
      else match unicode_todecimal py ch with
           | None => [63]
           | Some d => (48 + d) :: transform_chars py u'
           end
  end.

Definition transform_decimal_and_space (py : Interpreter) (u : str) : str :=
  if forallb is_ascii u then u else transform_chars py u.

(** [Py_ISSPACE]: tab, LF, VT, FF, CR and space. *)
Definition Py_ISSPACE (ch : N) : bool := ((9 <=? ch) && (ch <=? 13)) || (ch =? 32).
Definition is_digit (ch : N) : bool := (48 <=? ch) && (ch <=? 57).
Definition UNDERSCORE : N := 95.

Fixpoint skip_spaces (b : str) : str :=
  match b with
  | ch :: b' => if Py_ISSPACE ch then skip_spaces b' else b
  | [] => []
  end.

(** The digit scan: digits and single underscores between them.  Returns
    the last character seen, the number of digits, their value and the rest
    of the buffer; [None] on a doubled underscore. *)
Fixpoint scan_digits (b : str) (prev : N) (digits : N) (val : Z)
  : option (N * N * Z * str) :=
  match b with
  | ch :: b' =>
      if ch =? UNDERSCORE then
        if prev =? UNDERSCORE then None
        else scan_digits b' ch digits val
      else if is_digit ch then
        scan_digits b' ch (digits + 1) (10 * val + Z.of_N (ch - 48))%Z
      else Some (prev, digits, val, b)
  | [] => Some (prev, digits, val, [])
  end.

Definition invalid_literal (py : Interpreter) (u : str) : exception :=
  ValueError (lit "invalid literal for int() with base 10: " ++ take 200 (repr py u)).

Definition exceeds_limit (py : Interpreter) (digits : N) : exception :=
  ValueError (lit "Exceeds the limit (" ++ format_d (max_str_digits py)
              ++ lit " digits) for integer string conversion: value has "
              ++ format_d digits
              ++ lit " digits; use sys.set_int_max_str_digits() to increase the limit").

Definition over_limit (py : Interpreter) (digits : N) : bool :=
  (str_digits_check_threshold <? digits)
  && (0 <? max_str_digits py) && (max_str_digits py <? digits).

Definition starts_with (ch : N) (b : str) : bool :=
  match b with
  | c :: _ => c =? ch
  | [] => false
  end.

Definition PLUS : N := 43.
Definition MINUS : N := 45.

(** An optional sign. *)
Definition split_sign (b : str) : Z * str :=
  if starts_with PLUS b then (1%Z, tail b)
  else if starts_with MINUS b then ((-1)%Z, tail b)
  else (1%Z, b).

Definition py_int (py : Interpreter) (u : str) : exception + Z :=
  let buffer := transform_decimal_and_space py u in
  let (sign, b) := split_sign (skip_spaces buffer) in
  if starts_with UNDERSCORE b then inl (invalid_literal py u)
  else
    match scan_digits b 0 0 0%Z with
    | None => inl (invalid_literal py u)
    | Some (prev, digits, val, rest) =>
        if prev =? UNDERSCORE then inl (invalid_literal py u)
        else if over_limit py digits then inl (exceeds_limit py digits)
        else if digits =? 0 then inl (invalid_literal py u)
        else match skip_spaces rest with
             | [] => inr (sign * val)%Z
             | _ :: _ => inl (invalid_literal py u)
             end
    end.

(** An interpreter with CPython's default conversion limit and a Unicode
    database cut down to Latin-1 and the Arabic-Indic digits, for running
    examples. *)
Definition sample_py : Interpreter := {|
  max_str_digits := default_max_str_digits;
  unicode_isspace := fun ch => (ch =? 133) || (ch =? 160);
  unicode_todecimal := fun ch =>
    if (1632 <=? ch) && (ch <=? 1641) then Some (ch - 1632) else None;
  unicode_isprintable := fun ch =>
    ((161 <=? ch) && (ch <=? 255) && negb (ch =? 173))
    || ((1632 <=? ch) && (ch <=? 1641))
|}.

(** ** [json.dumps] with its defaults ([ensure_ascii=True], separators
    [", "] and [": "]) *)

(** [json.encoder.py_encode_basestring_ascii], the replacement of one
    character: printable ASCII other than the quote and the backslash is
    kept; the short escapes; [\uXXXX] below 0x10000; a surrogate pair
    above. *)
Definition escape_char (c : N) : str :=
  if (32 <=? c) && (c <=? 126) && negb (c =? QUOTE) && negb (c =? BACKSLASH) then [c]
  else if c =? BACKSLASH then [BACKSLASH; BACKSLASH]
  else if c =? QUOTE then [BACKSLASH; QUOTE]
  else if c =? 8 then lit "\b"
  else if c =? 12 then lit "\f"
  else if c =? 10 then lit "\n"
  else if c =? 13 then lit "\r"
  else if c =? 9 then lit "\t"
  else if c <? 65536 then lit "\u" ++ hex 4 c
  else
    let n := c - 65536 in
    let s1 := N.lor 55296 (N.land (N.shiftr n 10) 1023) in
    let s2 := N.lor 56320 (N.land n 1023) in
    lit "\u" ++ hex 4 s1 ++ lit "\u" ++ hex 4 s2.

Definition encode_basestring_ascii (s : str) : str :=
  [QUOTE] ++ flat_map escape_char s ++ [QUOTE].

(** [json.dumps] of a [dict] from [str] to [str], given as its items in
    insertion order. *)
Fixpoint dumps_items (items : list (str * str)) : str :=
  match items with
  | [] => []
  | (k, v) :: items' =>
      encode_basestring_ascii k ++ lit ": " ++ encode_basestring_ascii v
      ++ match items' with
         | [] => []
         | _ :: _ => lit ", " ++ dumps_items items'
         end
  end.

Definition json_dumps (items : list (str * str)) : str :=
  lit "{" ++ dumps_items items ++ lit "}".

(** ** Values, the environment and the keyword arguments *)

Inductive value :=
| VNone
| VStr (s : str)
| VInt (n : Z).

(** Truth value of an object, as [or] and [if] test it. *)
Definition truthy (v : value) : bool :=
  match v with
  | VNone => false
  | VStr s => negb (bool_decide (s = []))
  | VInt n => negb (n =? 0)%Z
  end.

(** [a or b] *)
Definition py_or (a b : value) : value := if truthy a then a else b.

(** [os.getenv(name)] *)
Definition getenv (environ : gmap string str) (name : string) : value :=
  match environ !! name with
  | Some v => VStr v
  | None => VNone
  end.

(** What the call of [ocr_document] does: return the markdown, raise an
    instance of [Exception], or let through an exception that is none. *)
Inductive ocr_result :=
| Returns (markdown : str)
| Raises (e : exception)
| Escapes (status : Z) (err : str).

(** ** The process: standard streams and the log of external calls *)

Record world := {
  w_stdout : str;
  w_stderr : str;
  w_calls : list (gmap string value)
}.

Definition initial_world : world :=
  {| w_stdout := []; w_stderr := []; w_calls := [] |}.

(** Computations that may raise and that write to the world. *)
Definition M (A : Type) : Type := world -> (raised + A) * world.

Definition ret {A} (a : A) : M A := fun w => (inr a, w).
Definition raise {A} (e : exception) : M A := fun w => (inl (Error e), w).
Definition bind {A B} (m : M A) (k : A -> M B) : M B :=
  fun w => match m w with
           | (inr a, w') => k a w'
           | (inl e, w') => (inl e, w')
           end.

Notation "'do' x <- m ; k" := (bind m (fun x => k))
  (at level 10, x name, m at level 100, k at level 200).

(** [print(s)] and [print(s, file=sys.stderr)] *)
Definition print_stdout (s : str) : M unit :=
  fun w => (inr tt, {| w_stdout := w_stdout w ++ s ++ [LF];
                       w_stderr := w_stderr w; w_calls := w_calls w |}).
Definition print_stderr (s : str) : M unit :=
  fun w => (inr tt, {| w_stdout := w_stdout w;
                       w_stderr := w_stderr w ++ s ++ [LF]; w_calls := w_calls w |}).

(** [l[i]] on a list *)
Definition getitem (l : list str) (i : nat) : M str :=
  match l !! i with
  | Some x => ret x
  | None => raise (IndexError (lit "list index out of range"))
  end.

Definition lift {A} (r : exception + A) : M A :=
  match r with
  | inr a => ret a
  | inl e => raise e
  end.

Section Runner.
Variable py : Interpreter.
Variable argv : list str.
Variable environ : gmap string str.
Variable ocr_document : gmap string value -> ocr_result.

(** The external call, logged. *)
Definition call_ocr (kwargs : gmap string value) : M str :=
  fun w =>
    let w' := {| w_stdout := w_stdout w; w_stderr := w_stderr w;
                 w_calls := w_calls w ++ [kwargs] |} in
    match ocr_document kwargs with
    | Returns markdown => (inr markdown, w')
    | Raises e => (inl (Error e), w')
    | Escapes status err => (inl (Escape status err), w')
    end.

Definition usage : str := lit "Usage: typhoon_ocr_runner.py <file_path> [page_num]".
Definition default_base_url : str := lit "https://api.opentyphoon.ai/v1".

(** [page_num = None; if len(sys.argv) >= 3 and sys.argv[2]: page_num = int(sys.argv[2])] *)
Definition resolve_page_num : M value :=
  if decide (3 <= length argv)%nat then
    do a2 <- getitem argv 2;
    if truthy (VStr a2) then
      do n <- lift (py_int py a2);
      ret (VInt n)
    else ret VNone
  else ret VNone.

Definition resolve_base_url : value :=
  py_or (getenv environ "OCR_BASE_URL")
    (py_or (getenv environ "OCR_ENDPOINT") (VStr default_base_url)).

Definition resolve_api_key : value :=
  py_or (getenv environ "OCR_API_KEY")
    (py_or (getenv environ "TYPHOON_OCR_API_KEY") (getenv environ "OPENAI_API_KEY")).

Definition build_kwargs (file_path : str) (base_url api_key page_num : value)
  : gmap string value :=
  let kwargs : gmap string value :=
    <["base_url" := base_url]> (<["pdf_or_image_path" := VStr file_path]> ∅) in
  let kwargs := if truthy api_key then <["api_key" := api_key]> kwargs else kwargs in
  match page_num with
  | VNone => kwargs
  | _ => <["page_num" := page_num]> kwargs
  end.

Definition main : M unit :=
  if decide (length argv < 2)%nat then raise (ValueError usage)
  else
    do file_path <- getitem argv 1;
    do page_num <- resolve_page_num;
    let base_url := resolve_base_url in
    let api_key := resolve_api_key in
    let kwargs := build_kwargs file_path base_url api_key page_num in
    do markdown <- call_ocr kwargs;
    print_stdout (json_dumps [(lit "markdown", markdown)]).

(** The [if __name__ == "__main__"] block: the exit status and the final
    world.  [sys.exit(1)] ends the process with status 1; falling off the
    end of the script ends it with status 0; what [except Exception] does
    not catch ends it as the interpreter decides. *)
Definition script (w : world) : Z * world :=
  match main w with
  | (inr _, w') => (0%Z, w')
  | (inl (Error exc), w') => (1%Z, snd (print_stderr (exc_str exc) w'))
  | (inl (Escape status err), w') =>
      (status, {| w_stdout := w_stdout w'; w_stderr := w_stderr w' ++ err;
                  w_calls := w_calls w' |})
  end.
End Runner.

(** What an observer of one invocation sees. *)
Record outcome := {
  exit_status : Z;
  stdout : str;
  stderr : str;
  ocr_calls : list (gmap string value)
}.

Definition run (py : Interpreter) (argv : list str) (environ : gmap string str)
    (ocr_document : gmap string value -> ocr_result) : outcome :=
  let (status, w) := script py argv environ ocr_document initial_world in
  {| exit_status := status; stdout := w_stdout w; stderr := w_stderr w;
     ocr_calls := w_calls w |}.

(** ** How one invocation unfolds *)

(** The outcome of a run that ends in the [except] clause. *)
Definition failed (e : exception) (calls : list (gmap string value)) : outcome :=
  {| exit_status := 1; stdout := []; stderr := exc_str e ++ [LF]; ocr_calls := calls |}.

(** The outcome of a run that reaches the external call with [kwargs]. *)
Definition called (ocr_document : gmap string value -> ocr_result)
    (kwargs : gmap string value) : outcome :=
  match ocr_document kwargs with
  | Returns markdown =>
      {| exit_status := 0;
         stdout := json_dumps [(lit "markdown", markdown)] ++ [LF];
         stderr := []; ocr_calls := [kwargs] |}
  | Raises e => failed e [kwargs]
  | Escapes status err =>
      {| exit_status := status; stdout := []; stderr := err; ocr_calls := [kwargs] |}
  end.

(** The page number as a function of the arguments. *)
Definition page_num_of (py : Interpreter) (argv : list str) : exception + value :=
  match argv !! 2%nat with
  | Some (ch :: a2) =>
      match py_int py (ch :: a2) with
      | inr n => inr (VInt n)
      | inl e => inl e
      end
  | _ => inr VNone
  end.

(** ** Environment precedence, as the specification words it *)

(** The first candidate that is set and not empty. *)
Fixpoint first_nonempty (candidates : list (option str)) : option str :=
  match candidates with
  | [] => None
  | Some (ch :: v) :: _ => Some (ch :: v)
  | _ :: rest => first_nonempty rest
  end.

(** ** Decimal integer strings, as the specification words them *)

(** The digits of a string after its optional sign. *)
Definition decimal_magnitude (s : str) : str :=
  if starts_with PLUS s || starts_with MINUS s then tail s else s.

(** An optional sign followed by one or more of the digits 0 to 9. *)
Definition is_decimal (s : str) : bool :=
  negb (bool_decide (decimal_magnitude s = [])) && forallb is_digit (decimal_magnitude s).

(** The number a string of digits denotes. *)
Definition digits_value (d : str) : Z :=
  fold_left (fun acc ch => (10 * acc + Z.of_N (ch - 48))%Z) d 0%Z.

(** The integer a decimal integer string denotes. *)
Definition decimal_value (s : str) : Z :=
  if starts_with MINUS s then (- digits_value (decimal_magnitude s))%Z
  else digits_value (decimal_magnitude s).

(** The number of digits is within the interpreter's conversion limit, or
    the limit is switched off. *)
Definition within_str_digits_limit (py : Interpreter) (s : str) : Prop :=
  max_str_digits py = 0 \/ N.of_nat (length (decimal_magnitude s)) <= max_str_digits py.

(** ** Reading the output back

    A reader of JSON texts (RFC 8259) that consist of one object with one
    string member, as a consumer of the runner's standard output would
    parse them. *)

Definition hexval (c : N) : option N :=
  if is_digit c then Some (c - 48)
  else if (97 <=? c) && (c <=? 102) then Some (c - 87)
  else if (65 <=? c) && (c <=? 70) then Some (c - 55)
  else None.

Definition read_hex4 (s : str) : option (N * str) :=
  match s with
  | a :: b :: c :: d :: rest =>
      a ← hexval a; b ← hexval b; c ← hexval c; d ← hexval d;
      Some (4096 * a + 256 * b + 16 * c + d, rest)
  | _ => None
  end.

(** The character a two-character escape stands for. *)
Definition short_escape (e : N) : option N :=
  if e =? QUOTE then Some QUOTE
  else if e =? BACKSLASH then Some BACKSLASH
  else if e =? 47 then Some 47
  else if e =? 98 then Some 8
  else if e =? 102 then Some 12
  else if e =? 110 then Some 10
  else if e =? 114 then Some 13
  else if e =? 116 then Some 9
  else None.

(** One unescaped character or one escape sequence of a string literal. *)
Definition read_unit (s : str) : option (N * str) :=
  match s with
  | [] => None
  | c :: s' =>
      if c =? BACKSLASH then
        match s' with
        | [] => None
        | e :: s'' =>
            if e =? 117 then read_hex4 s''
            else x ← short_escape e; Some (x, s'')
        end
      else if (c <? 32) || (c =? QUOTE) then None
      else Some (c, s')
  end.

Definition is_high_surrogate (u : N) : bool := (55296 <=? u) && (u <=? 56319).
Definition is_low_surrogate (u : N) : bool := (56320 <=? u) && (u <=? 57343).

(** The low half of a surrogate pair, when one follows. *)
Definition read_low (s : str) : option (N * str) :=
  match s with
  | a :: b :: s' =>
      if (a =? BACKSLASH) && (b =? 117) then
        '(lo, r) ← read_hex4 s';
        if is_low_surrogate lo then Some (lo, r) else None
      else None
  | _ => None
  end.

(** The rest of a string literal after its opening quote: the string it
    denotes and the text after its closing quote. *)
Fixpoint read_string (fuel : nat) (s : str) : option (str * str) :=
  match fuel with
  | O => None
  | S fuel' =>
      if starts_with QUOTE s then Some ([], tail s)
      else
        '(u, r) ← read_unit s;
        match (if is_high_surrogate u then read_low r else None) with
        | Some (lo, r') =>
            '(t, rest) ← read_string fuel' r';
            Some (65536 + 1024 * (u - 55296) + (lo - 56320) :: t, rest)
        | None =>
            '(t, rest) ← read_string fuel' r;
            Some (u :: t, rest)
        end
  end.

Definition json_space (c : N) : bool :=
  (c =? 32) || (c =? 9) || (c =? 10) || (c =? 13).

Fixpoint skip_ws (s : str) : str :=
  match s with
  | c :: s' => if json_space c then skip_ws s' else s
  | [] => []
  end.

Definition expect (ch : N) (s : str) : option str :=
  if starts_with ch (skip_ws s) then Some (tail (skip_ws s)) else None.

(** The name and the value of the single member of the object [text]. *)
Definition json_loads_member (text : str) : option (str * str) :=
  s ← expect 123 text;
  s ← expect QUOTE s;
  '(name, s) ← read_string (length s) s;
  s ← expect 58 s;
  s ← expect QUOTE s;
  '(val, s) ← read_string (length s) s;
  s ← expect 125 s;
  match skip_ws s with
  | [] => Some (name, val)
  | _ :: _ => None
  end.

(** Unicode scalar values: code points that are not surrogates.  A [str]
    of scalar values is what an encoder to UTF-8 accepts. *)
Definition is_scalar_value (c : N) : bool :=
  (c <? 55296) || ((57344 <=? c) && (c <=? 1114111)).

(** ** Sample invocations *)

Definition sample_environ : gmap string str :=
  <["OPENAI_API_KEY" := lit "sk-generic"]>
    (<["OCR_API_KEY" := lit "sk-ocr"]>
       (<["OCR_ENDPOINT" := lit "http://localhost:8000/v1"]>
          (<["OCR_BASE_URL" := []]> ∅))).

Definition sample_markdown : str := lit "# Title" ++ [LF] ++ lit "Body".

Definition ocr_returning (markdown : str) : gmap string value -> ocr_result :=
  fun _ => Returns markdown.

Definition ocr_raising (msg : str) : gmap string value -> ocr_result :=
  fun _ => Raises (ExternalError msg).

Definition script_name : str := lit "typhoon_ocr_runner.py".

(** 4301 digits, one more than the default conversion limit. *)
Definition long_digits : str := repeat 49 4301.

Definition argv_no_args : list str := [script_name].
Definition argv_path_only : list str := [script_name; lit "scan.pdf"].
Definition argv_page_3 : list str := [script_name; lit "scan.pdf"; lit "3"].
Definition argv_page_empty : list str := [script_name; lit "scan.pdf"; []].
Definition argv_page_3_5 : list str := [script_name; lit "scan.pdf"; lit "3.5"].
Definition argv_page_minus_5 : list str := [script_name; lit "scan.pdf"; lit "-5"].
Definition argv_page_0 : list str := [script_name; lit "scan.pdf"; lit "0"].
Definition argv_extra : list str :=
  [lit "runner"; lit "scan.pdf"; lit "3"; lit "ignored"; lit "--verbose"].
Definition argv_long : list str := [script_name; lit "scan.pdf"; long_digits].
Definition argv_long_negative : list str :=
  [script_name; lit "scan.pdf"; MINUS :: long_digits].

(** The keyword arguments expected for [scan.pdf] under [sample_environ]. *)
Definition sample_kwargs : gmap string value :=
  <["api_key" := VStr (lit "sk-ocr")]>
    (<["base_url" := VStr (lit "http://localhost:8000/v1")]>
       (<["pdf_or_image_path" := VStr (lit "scan.pdf")]> ∅)).

Definition sample_kwargs_page (n : Z) : gmap string value :=
  <["page_num" := VInt n]> sample_kwargs.

(** ** Names the runner knows, and further sample invocations *)


(** The keyword arguments the script may pass. *)
Definition kwargs_names : list string :=
  ["pdf_or_image_path"; "base_url"; "api_key"; "page_num"].

Definition argv_page_blank : list str := [script_name; lit "scan.pdf"; lit "  "].
Definition argv_page_padded : list str :=
  [script_name; lit "scan.pdf"; lit " " ++ lit "+12" ++ [LF]].
Definition argv_other_path : list str :=
  [script_name; []; lit "3"; lit "ignored"].

(** [sample_py] started with the conversion limit switched off. *)
Definition no_limit_py : Interpreter := {|
  max_str_digits := 0;
  unicode_isspace := unicode_isspace sample_py;
  unicode_todecimal := unicode_todecimal sample_py;
  unicode_isprintable := unicode_isprintable sample_py
|}.


(** * Properties of the runner *)

(** ** One invocation, case by case *)

Lemma resolve_page_num_eq py argv w :
  resolve_page_num py argv w =
  (match page_num_of py argv with
   | inl e => inl (Error e)
   | inr page_num => inr page_num
   end, w).
Proof.
  unfold resolve_page_num, page_num_of.
  destruct (decide (3 <= length argv)%nat) as [Hlen | Hlen].
  - destruct (argv !! 2%nat) as [a2 |] eqn:H2.
    + unfold bind, getitem. rewrite H2. cbn.
      destruct a2 as [| ch a2]; [reflexivity |].
      cbn. destruct (py_int py (ch :: a2)); reflexivity.
    + apply lookup_ge_None in H2. lia.
  - destruct (argv !! 2%nat) as [a2 |] eqn:H2; [| reflexivity].
    apply lookup_lt_Some in H2. lia.
Qed.

Lemma run_unfold py argv environ ocr :
  run py argv environ ocr =
  match argv !! 1%nat with
  | None => failed (ValueError usage) []
  | Some file_path =>
      match page_num_of py argv with
      | inl e => failed e []
      | inr page_num =>
          called ocr (build_kwargs file_path (resolve_base_url environ)
                        (resolve_api_key environ) page_num)
      end
  end.
Proof.
  unfold run, script, main.
  destruct (decide (length argv < 2)%nat) as [Hlen | Hlen].
  - rewrite (proj2 (lookup_ge_None argv 1%nat)) by lia. reflexivity.
  - destruct (argv !! 1%nat) as [file_path |] eqn:H1.
    2:{ apply lookup_ge_None in H1. lia. }
    unfold bind at 1. unfold getitem. rewrite H1. cbn.
    unfold bind at 1. rewrite resolve_page_num_eq.
    destruct (page_num_of py argv) as [e | page_num]; [reflexivity |].
    unfold bind, call_ocr, called. cbn.
    destruct (ocr _); reflexivity.
Qed.

Lemma called_calls ocr kw : ocr_calls (called ocr kw) = [kw].
Proof. unfold called. destruct (ocr kw); reflexivity. Qed.

Lemma run_calls_inv py argv environ ocr kw :
  kw ∈ ocr_calls (run py argv environ ocr) ->
  exists file_path page_num,
    argv !! 1%nat = Some file_path /\
    page_num_of py argv = inr page_num /\
    kw = build_kwargs file_path (resolve_base_url environ)
           (resolve_api_key environ) page_num /\
    run py argv environ ocr = called ocr kw.
Proof.
  rewrite run_unfold.
  destruct (argv !! 1%nat) as [file_path |]; [| cbn; intros H; inversion H].
  destruct (page_num_of py argv) as [e | page_num]; [cbn; intros H; inversion H |].
  intros Hin. exists file_path, page_num.
  assert (kw = build_kwargs file_path (resolve_base_url environ)
                 (resolve_api_key environ) page_num) as ->.
  { unfold called in Hin. destruct (ocr _); cbn in Hin;
      apply list_elem_of_singleton in Hin; exact Hin. }
  auto.
Qed.

(** The keyword arguments, key by key. *)
Section Kwargs.
Variables (file_path : str) (base_url api_key page_num : value).

Lemma kwargs_path :
  build_kwargs file_path base_url api_key page_num !! "pdf_or_image_path"
  = Some (VStr file_path).
Proof.
  unfold build_kwargs.
  destruct (truthy api_key), page_num; by simplify_map_eq.
Qed.

Lemma kwargs_base_url :
  build_kwargs file_path base_url api_key page_num !! "base_url" = Some base_url.
Proof.
  unfold build_kwargs.
  destruct (truthy api_key), page_num; by simplify_map_eq.
Qed.

Lemma kwargs_api_key :
  build_kwargs file_path base_url api_key page_num !! "api_key"
  = if truthy api_key then Some api_key else None.
Proof.
  unfold build_kwargs.
  destruct (truthy api_key), page_num; by simplify_map_eq.
Qed.

Lemma kwargs_page_num :
  build_kwargs file_path base_url api_key page_num !! "page_num"
  = match page_num with VNone => None | _ => Some page_num end.
Proof.
  unfold build_kwargs.
  destruct (truthy api_key), page_num; by simplify_map_eq.
Qed.
End Kwargs.

Lemma resolve_base_url_spec (environ : gmap string str) :
  resolve_base_url environ =
  VStr (default (lit "https://api.opentyphoon.ai/v1")
          (first_nonempty [environ !! "OCR_BASE_URL"; environ !! "OCR_ENDPOINT"])).
Proof.
  unfold resolve_base_url, getenv, py_or. cbn [first_nonempty].
  destruct (environ !! "OCR_BASE_URL") as [[| c1 v1] |];
    destruct (environ !! "OCR_ENDPOINT") as [[| c2 v2] |]; reflexivity.
Qed.

Lemma resolve_api_key_spec (environ : gmap string str) :
  (if truthy (resolve_api_key environ) then Some (resolve_api_key environ) else None) =
  VStr <$> first_nonempty [environ !! "OCR_API_KEY"; environ !! "TYPHOON_OCR_API_KEY";
                           environ !! "OPENAI_API_KEY"].
Proof.
  unfold resolve_api_key, getenv, py_or. cbn [first_nonempty].
  destruct (environ !! "OCR_API_KEY") as [[| c1 v1] |];
    destruct (environ !! "TYPHOON_OCR_API_KEY") as [[| c2 v2] |];
    destruct (environ !! "OPENAI_API_KEY") as [[| c3 v3] |]; reflexivity.
Qed.

Lemma page_num_of_absent py (argv : list str) :
  argv !! 2%nat = None \/ argv !! 2%nat = Some [] -> page_num_of py argv = inr VNone.
Proof. unfold page_num_of. intros [-> | ->]; reflexivity. Qed.

Lemma page_num_of_present py (argv : list str) s :
  argv !! 2%nat = Some s -> s <> [] ->
  page_num_of py argv =
  match py_int py s with inr n => inr (VInt n) | inl e => inl e end.
Proof.
  unfold page_num_of. intros -> Hs. destruct s; [contradiction | reflexivity].
Qed.

Lemma lookup_second_first (argv : list str) s :
  argv !! 2%nat = Some s -> exists file_path, argv !! 1%nat = Some file_path.
Proof.
  intros H. apply lookup_lt_Some in H.
  destruct (lookup_lt_is_Some_2 argv 1%nat) as [f Hf]; [lia | eauto].
Qed.

(** ** Errors before the external call *)

(** C1: with fewer than two process arguments the run ends with status 1,
    the fixed usage message on standard error, nothing on standard output,
    and no call of the external OCR capability. *)
Theorem usage_error py argv environ ocr :
  (length argv < 2)%nat ->
  exit_status (run py argv environ ocr) = 1%Z /\
  stderr (run py argv environ ocr)
    = lit "Usage: typhoon_ocr_runner.py <file_path> [page_num]" ++ [LF] /\
  stdout (run py argv environ ocr) = [] /\
  ocr_calls (run py argv environ ocr) = [].
Proof.
  intros Hlen. rewrite run_unfold.
  rewrite (proj2 (lookup_ge_None argv 1%nat)) by lia.
  repeat split.
Qed.

(** C8: a second argument that is not empty and on which [int] raises ends
    the run with status 1 and the message of that exception on standard
    error, and the external OCR capability is not called. *)
Theorem unparseable_page_num py argv environ ocr s e :
  argv !! 2%nat = Some s ->
  s <> [] ->
  py_int py s = inl e ->
  exit_status (run py argv environ ocr) = 1%Z /\
  stderr (run py argv environ ocr) = exc_str e ++ [LF] /\
  stdout (run py argv environ ocr) = [] /\
  ocr_calls (run py argv environ ocr) = [].
Proof.
  intros H2 Hs Hint.
  destruct (lookup_second_first argv s H2) as [file_path H1].
  rewrite run_unfold, H1, (page_num_of_present py argv s H2 Hs), Hint.
  repeat split.
Qed.

(** [int("abc")] and [int("3.5")] raise [ValueError] whatever the
    interpreter's configuration. *)
Example int_abc_raises py :
  py_int py (lit "abc") = inl (invalid_literal py (lit "abc")).
Proof. reflexivity. Qed.

Example int_3_5_raises py :
  py_int py (lit "3.5") = inl (invalid_literal py (lit "3.5")).
Proof. reflexivity. Qed.

(** ** The external call and its outcome *)

(** C2: when the external OCR call raises an instance of [Exception] whose
    text ([str(exc)]) is [msg], the run ends with status 1, with [msg] and
    a line break on standard error, and with nothing on standard output. *)
Theorem ocr_failure py argv environ ocr kw e msg :
  kw ∈ ocr_calls (run py argv environ ocr) ->
  ocr kw = Raises e ->
  e = ExternalError msg \/ e = ValueError msg \/ e = IndexError msg ->
  exit_status (run py argv environ ocr) = 1%Z /\
  stderr (run py argv environ ocr) = msg ++ [LF] /\
  stdout (run py argv environ ocr) = [].
Proof.
  intros Hin Hraise Hmsg.
  destruct (run_calls_inv _ _ _ _ _ Hin) as (f & pn & _ & _ & _ & ->).
  unfold called. rewrite Hraise.
  destruct Hmsg as [-> | [-> | ->]]; repeat split.
Qed.

(** ** Parameter resolution *)

(** C3: the [base_url] of the external call is the first of [OCR_BASE_URL]
    and [OCR_ENDPOINT] that is set and not empty, and the fixed default
    endpoint when there is none; a non-empty [OCR_BASE_URL] wins. *)
Theorem base_url_precedence py argv environ ocr kw :
  kw ∈ ocr_calls (run py argv environ ocr) ->
  kw !! "base_url" =
    Some (VStr (default (lit "https://api.opentyphoon.ai/v1")
                  (first_nonempty [environ !! "OCR_BASE_URL";
                                   environ !! "OCR_ENDPOINT"]))) /\
  (forall u, environ !! "OCR_BASE_URL" = Some u -> u <> [] ->
             kw !! "base_url" = Some (VStr u)).
Proof.
  intros Hin.
  destruct (run_calls_inv _ _ _ _ _ Hin) as (f & pn & _ & _ & -> & _).
  rewrite kwargs_base_url, resolve_base_url_spec. split; [reflexivity |].
  intros u -> Hu. destruct u; [contradiction | reflexivity].
Qed.

(** C4: the [api_key] of the external call is the first of [OCR_API_KEY],
    [TYPHOON_OCR_API_KEY] and [OPENAI_API_KEY] that is set and not empty; a
    non-empty [OCR_API_KEY] wins, and when there is none the call has no
    [api_key] argument at all. *)
Theorem api_key_precedence py argv environ ocr kw :
  kw ∈ ocr_calls (run py argv environ ocr) ->
  kw !! "api_key" =
    VStr <$> first_nonempty [environ !! "OCR_API_KEY";
                             environ !! "TYPHOON_OCR_API_KEY";
                             environ !! "OPENAI_API_KEY"] /\
  (forall k, environ !! "OCR_API_KEY" = Some k -> k <> [] ->
             kw !! "api_key" = Some (VStr k)) /\
  ((forall name, name ∈ ["OCR_API_KEY"; "TYPHOON_OCR_API_KEY"; "OPENAI_API_KEY"] ->
      environ !! name = None \/ environ !! name = Some []) ->
   kw !! "api_key" = None).
Proof.
  intros Hin.
  destruct (run_calls_inv _ _ _ _ _ Hin) as (f & pn & _ & _ & -> & _).
  rewrite kwargs_api_key, resolve_api_key_spec. split; [reflexivity |]. split.
  - intros k -> Hk. destruct k; [contradiction | reflexivity].
  - intros Hnone.
    assert (forall name, name ∈ ["OCR_API_KEY"; "TYPHOON_OCR_API_KEY"; "OPENAI_API_KEY"] ->
              first_nonempty [environ !! name] = None) as Hn.
    { intros name Hname. destruct (Hnone name Hname) as [-> | ->]; reflexivity. }
    pose proof (Hn "OCR_API_KEY" ltac:(set_solver)) as H1.
    pose proof (Hn "TYPHOON_OCR_API_KEY" ltac:(set_solver)) as H2.
    pose proof (Hn "OPENAI_API_KEY" ltac:(set_solver)) as H3.
    cbn [first_nonempty] in *.
    destruct (environ !! "OCR_API_KEY") as [[| ? ?] |]; try discriminate;
    destruct (environ !! "TYPHOON_OCR_API_KEY") as [[| ? ?] |]; try discriminate;
    destruct (environ !! "OPENAI_API_KEY") as [[| ? ?] |]; try discriminate;
    reflexivity.
Qed.

(** C5, amended: a [page_num] argument is passed to the external call
    exactly when a second positional argument is present, not empty and
    accepted by [int] (when [int] raises, no call is made at all).  In
    every call that is made, [page_num] is there exactly when the second
    argument is present and not empty.  When it is absent or the empty
    string, the call is made without [page_num]: the empty string stands
    for no page number, not for 0. *)
Theorem page_num_passed_iff py argv environ ocr :
  ((exists kw, kw ∈ ocr_calls (run py argv environ ocr) /\ is_Some (kw !! "page_num"))
   <-> (exists s n, argv !! 2%nat = Some s /\ s <> [] /\ py_int py s = inr n)) /\
  (forall kw, kw ∈ ocr_calls (run py argv environ ocr) ->
     (is_Some (kw !! "page_num") <-> exists s, argv !! 2%nat = Some s /\ s <> [])) /\
  (argv !! 2%nat = None \/ argv !! 2%nat = Some [] ->
   forall file_path, argv !! 1%nat = Some file_path ->
   exists kw, ocr_calls (run py argv environ ocr) = [kw] /\
              kw !! "page_num" = None /\
              kw !! "pdf_or_image_path" = Some (VStr file_path)).
Proof.
  assert (forall kw, kw ∈ ocr_calls (run py argv environ ocr) ->
            match argv !! 2%nat with
            | Some (ch :: a2) =>
                exists n, py_int py (ch :: a2) = inr n /\
                          kw !! "page_num" = Some (VInt n)
            | _ => kw !! "page_num" = None
            end) as Hcall.
  { intros kw Hin.
    destruct (run_calls_inv _ _ _ _ _ Hin) as (f & pn & _ & Hpn & -> & _).
    rewrite kwargs_page_num. unfold page_num_of in Hpn.
    destruct (argv !! 2%nat) as [[| ch a2] |].
    - injection Hpn as <-. reflexivity.
    - destruct (py_int py (ch :: a2)) as [e | n]; [discriminate |].
      injection Hpn as <-. eauto.
    - injection Hpn as <-. reflexivity. }
  split; [| split].
  - split.
    + intros (kw & Hin & Hsome). specialize (Hcall kw Hin).
      destruct (argv !! 2%nat) as [[| ch a2] |].
      * rewrite Hcall in Hsome. destruct Hsome as [? [=]].
      * destruct Hcall as (n & Hint & _). exists (ch :: a2), n.
        split; [reflexivity |]. split; [discriminate | exact Hint].
      * rewrite Hcall in Hsome. destruct Hsome as [? [=]].
    + intros (s & n & H2 & Hs & Hint).
      destruct (lookup_second_first argv s H2) as [file_path H1].
      rewrite run_unfold, H1, (page_num_of_present py argv s H2 Hs), Hint, called_calls.
      eexists. split; [apply list_elem_of_here |].
      rewrite kwargs_page_num. eauto.
  - intros kw Hin. specialize (Hcall kw Hin).
    destruct (argv !! 2%nat) as [[| ch a2] |].
    + rewrite Hcall. split; [intros [? [=]] | intros (s & [= <-] & Hs); contradiction].
    + destruct Hcall as (n & _ & ->).
      split; [intros _; exists (ch :: a2); split; [reflexivity | discriminate] | eauto].
    + rewrite Hcall. split; [intros [? [=]] | intros (s & [=] & _)].
  - intros Habs file_path H1.
    rewrite run_unfold, H1, (page_num_of_absent py argv Habs).
    eexists. split; [apply called_calls |].
    rewrite kwargs_page_num, kwargs_path. split; reflexivity.
Qed.

(** ** Ignored arguments *)

(** C10: two invocations that agree on [argv[1]], on [argv[2]], on the
    environment and on the external capability have the same outcome (the
    calls made and their arguments, both streams and the exit status),
    whatever their later arguments are. *)
Theorem extra_arguments_ignored py argv argv' environ ocr :
  argv !! 1%nat = argv' !! 1%nat ->
  argv !! 2%nat = argv' !! 2%nat ->
  run py argv environ ocr = run py argv' environ ocr.
Proof.
  intros H1 H2. rewrite !run_unfold. unfold page_num_of.
  rewrite H1, H2. reflexivity.
Qed.

(** ** [int] on decimal integer strings *)

(** Case analysis on the comparisons of code points in sight. *)
Ltac ncmp :=
  repeat match goal with
    | |- context [N.eqb ?a ?b] => destruct (N.eqb_spec a b)
    | |- context [N.leb ?a ?b] => destruct (N.leb_spec a b)
    | |- context [N.ltb ?a ?b] => destruct (N.ltb_spec a b)
    | H : context [N.eqb ?a ?b] |- _ => destruct (N.eqb_spec a b)
    | H : context [N.leb ?a ?b] |- _ => destruct (N.leb_spec a b)
    | H : context [N.ltb ?a ?b] |- _ => destruct (N.ltb_spec a b)
    end;
  cbn [andb orb negb] in *; try congruence; try lia.

Lemma digit_is_ascii ch : is_digit ch = true -> is_ascii ch = true.
Proof. unfold is_digit, is_ascii. intros H. ncmp. Qed.

Lemma digit_not_space ch : is_digit ch = true -> Py_ISSPACE ch = false.
Proof. unfold is_digit, Py_ISSPACE. intros H. ncmp. Qed.

Lemma scan_digits_all d :
  forallb is_digit d = true ->
  forall prev digits val,
    prev <> UNDERSCORE ->
    exists last,
      last <> UNDERSCORE /\
      scan_digits d prev digits val =
      Some (last, digits + N.of_nat (length d),
            fold_left (fun acc ch => (10 * acc + Z.of_N (ch - 48))%Z) d val, []).
Proof.
  induction d as [| ch d IH]; intros Hd prev digits val Hprev.
  - exists prev. split; [assumption |]. cbn. rewrite N.add_0_r. reflexivity.
  - cbn in Hd. apply andb_true_iff in Hd as [Hch Hd].
    assert (ch <> UNDERSCORE) as Hne.
    { intros ->. discriminate. }
    destruct (IH Hd ch (digits + 1) (10 * val + Z.of_N (ch - 48))%Z Hne)
      as (last & Hlast & Heq).
    exists last. split; [assumption |].
    cbn [scan_digits]. rewrite (proj2 (N.eqb_neq _ _) Hne), Hch, Heq.
    cbn [length fold_left]. do 4 f_equal. lia.
Qed.

Lemma within_limit_not_over py s :
  within_str_digits_limit py s ->
  over_limit py (N.of_nat (length (decimal_magnitude s))) = false.
Proof.
  unfold within_str_digits_limit, over_limit. intros [H | H]; ncmp.
Qed.

Lemma digits_are_ascii d : forallb is_digit d = true -> forallb is_ascii d = true.
Proof.
  intros Hd. apply forallb_forall. intros x Hx.
  apply digit_is_ascii. eapply forallb_forall in Hd; eauto.
Qed.

(** A decimal integer string reaches the digit scan as it is: nothing to
    transform, no space to skip, its sign split off. *)
Lemma decimal_shape s :
  is_decimal s = true ->
  forallb is_ascii s = true /\
  skip_spaces s = s /\
  split_sign s = ((if starts_with MINUS s then -1 else 1)%Z, decimal_magnitude s) /\
  starts_with UNDERSCORE (decimal_magnitude s) = false.
Proof.
  unfold is_decimal. intros Hdec.
  apply andb_true_iff in Hdec as [Hne Hdig].
  apply negb_true_iff, bool_decide_eq_false in Hne.
  assert (starts_with UNDERSCORE (decimal_magnitude s) = false) as Hund.
  { destruct (decimal_magnitude s) as [| c d]; [reflexivity |].
    cbn in Hdig |- *. apply andb_true_iff in Hdig as [Hc _].
    apply N.eqb_neq. intros ->. discriminate. }
  unfold decimal_magnitude, split_sign in *.
  destruct s as [| c s']; [contradiction |]. cbn [starts_with tail] in *.
  destruct (N.eqb_spec c PLUS) as [-> | Hp]; [| destruct (N.eqb_spec c MINUS) as [-> | Hm]];
    cbn [orb] in *.
  - repeat split; [| exact Hund]. cbn. apply digits_are_ascii, Hdig.
  - repeat split; [| exact Hund]. cbn. apply digits_are_ascii, Hdig.
  - pose proof (digits_are_ascii _ Hdig) as Hascii.
    cbn in Hdig. apply andb_true_iff in Hdig as [Hc Hs'].
    repeat split; [exact Hascii | | exact Hund].
    cbn. rewrite (digit_not_space _ Hc). reflexivity.
Qed.

(** [int] on a decimal integer string: the number it denotes, unless it
    has more digits than the conversion limit allows. *)
Lemma py_int_of_decimal py s :
  is_decimal s = true ->
  py_int py s =
  if over_limit py (N.of_nat (length (decimal_magnitude s)))
  then inl (exceeds_limit py (N.of_nat (length (decimal_magnitude s))))
  else inr (decimal_value s).
Proof.
  intros Hdec. destruct (decimal_shape s Hdec) as (Hascii & Hskip & Hsign & Hund).
  unfold is_decimal in Hdec. apply andb_true_iff in Hdec as [Hne Hdig].
  apply negb_true_iff, bool_decide_eq_false in Hne.
  destruct (scan_digits_all _ Hdig 0 0 0%Z ltac:(discriminate)) as (last & Hlast & Hscan).
  rewrite N.add_0_l in Hscan.
  unfold py_int, transform_decimal_and_space.
  rewrite Hascii, Hskip, Hsign, Hund, Hscan, (proj2 (N.eqb_neq _ _) Hlast).
  destruct (over_limit py _); [reflexivity |].
  assert ((N.of_nat (length (decimal_magnitude s)) =? 0) = false) as ->.
  { apply N.eqb_neq. destruct (decimal_magnitude s); [contradiction | cbn; lia]. }
  cbn [skip_spaces]. f_equal. unfold decimal_value, digits_value.
  destruct (starts_with MINUS s); lia.
Qed.

Lemma py_int_decimal py s :
  is_decimal s = true ->
  within_str_digits_limit py s ->
  py_int py s = inr (decimal_value s).
Proof.
  intros Hdec Hlim.
  rewrite (py_int_of_decimal py s Hdec), (within_limit_not_over py s Hlim). reflexivity.
Qed.

Lemma is_decimal_nonempty s : is_decimal s = true -> s <> [].
Proof. intros H ->. discriminate. Qed.

(** Whatever [int] makes of a non-empty second argument goes into the
    call as it is. *)
Lemma run_parsed py argv environ ocr file_path s n :
  argv !! 1%nat = Some file_path ->
  argv !! 2%nat = Some s ->
  py_int py s = inr n ->
  run py argv environ ocr =
  called ocr (build_kwargs file_path (resolve_base_url environ)
                (resolve_api_key environ) (VInt n)).
Proof.
  intros H1 H2 Hint.
  assert (s <> []) as Hs by (intros ->; discriminate).
  rewrite run_unfold, H1, (page_num_of_present py argv s H2 Hs), Hint. reflexivity.
Qed.

Lemma run_decimal py argv environ ocr file_path s :
  argv !! 1%nat = Some file_path ->
  argv !! 2%nat = Some s ->
  is_decimal s = true ->
  within_str_digits_limit py s ->
  run py argv environ ocr =
  called ocr (build_kwargs file_path (resolve_base_url environ)
                (resolve_api_key environ) (VInt (decimal_value s))).
Proof.
  intros H1 H2 Hdec Hlim.
  exact (run_parsed py argv environ ocr file_path s _ H1 H2 (py_int_decimal py s Hdec Hlim)).
Qed.


(** ** The JSON encoding read back *)

Lemma hexval_hexdigit d : d < 16 -> hexval (hexdigit d) = Some d.
Proof.
  intros Hd. unfold hexval, hexdigit, is_digit.
  destruct (N.ltb_spec d 10); ncmp; f_equal; lia.
Qed.

Lemma land_15_lt a : N.land a 15 < 16.
Proof.
  change 15 with (N.ones 4). rewrite N.land_ones.
  apply N.mod_upper_bound. discriminate.
Qed.

Lemma hex4_value c :
  c < 65536 ->
  4096 * N.land (N.shiftr (N.shiftr (N.shiftr c 4) 4) 4) 15
  + 256 * N.land (N.shiftr (N.shiftr c 4) 4) 15
  + 16 * N.land (N.shiftr c 4) 15 + N.land c 15 = c.
Proof.
  intros Hc. change 15 with (N.ones 4).
  rewrite !N.land_ones, !N.shiftr_div_pow2. change (2 ^ 4) with 16.
  pose proof (N.Div0.div_mod c 16) as E0.
  pose proof (N.Div0.div_mod (c / 16) 16) as E1.
  pose proof (N.Div0.div_mod (c / 16 / 16) 16) as E2.
  assert (c / 16 / 16 / 16 < 16) as Hq.
  { rewrite !N.Div0.div_div. apply N.Div0.div_lt_upper_bound. exact Hc. }
  rewrite (N.mod_small _ _ Hq). lia.
Qed.

Lemma read_hex4_hex c r : c < 65536 -> read_hex4 (hex 4 c ++ r) = Some (c, r).
Proof.
  intros Hc. cbn [hex app read_hex4].
  rewrite !hexval_hexdigit by apply land_15_lt.
  cbn. rewrite (hex4_value c Hc). reflexivity.
Qed.

Lemma land_high_low k x n : x < 2 ^ n -> N.land (k * 2 ^ n) x = 0.
Proof.
  intros Hx. apply N.bits_inj_0. intros i. rewrite N.land_spec.
  destruct (N.lt_ge_cases i n) as [Hi | Hi].
  - rewrite N.mul_pow2_bits_low by assumption. reflexivity.
  - assert (N.testbit x i = false) as ->; [| apply andb_false_r].
    apply N.b2n_inj. rewrite N.testbit_spec'.
    rewrite N.div_small; [reflexivity |].
    eapply N.lt_le_trans; [exact Hx |]. apply N.pow_le_mono_r; [discriminate | assumption].
Qed.

Lemma lor_high_low k x n : x < 2 ^ n -> N.lor (k * 2 ^ n) x = k * 2 ^ n + x.
Proof.
  intros Hx. pose proof (land_high_low k x n Hx) as H0.
  rewrite (N.add_nocarry_lxor _ _ H0). symmetry. apply N.lxor_lor. exact H0.
Qed.

(** The two halves of the surrogate pair of a code point beyond the basic
    plane. *)
Lemma surrogate_halves n :
  n < 1048576 ->
  N.lor 55296 (N.land (N.shiftr n 10) 1023) = 55296 + n / 1024 /\
  N.lor 56320 (N.land n 1023) = 56320 + n mod 1024 /\
  n / 1024 < 1024.
Proof.
  intros Hn.
  assert (n / 1024 < 1024) as Hq by (apply N.Div0.div_lt_upper_bound; exact Hn).
  change 1023 with (N.ones 10). rewrite !N.land_ones, N.shiftr_div_pow2.
  change (2 ^ 10) with 1024. rewrite (N.mod_small _ _ Hq).
  change 55296 with (54 * 2 ^ 10). change 56320 with (55 * 2 ^ 10).
  rewrite !lor_high_low.
  - auto.
  - change (2 ^ 10) with 1024. apply N.mod_upper_bound. discriminate.
  - exact Hq.
Qed.

Lemma escape_char_bmp c :
  c < 65536 ->
  escape_char c = [c] /\ 32 <= c /\ c <= 126 /\ c <> QUOTE /\ c <> BACKSLASH
  \/ (exists e, escape_char c = [BACKSLASH; e] /\ e <> 117 /\ short_escape e = Some c)
  \/ escape_char c = [BACKSLASH; 117] ++ hex 4 c.
Proof.
  intros Hc.
  destruct (N.eqb_spec c BACKSLASH) as [-> | Hb];
    [right; left; exists BACKSLASH; by repeat split |].
  destruct (N.eqb_spec c QUOTE) as [-> | Hq];
    [right; left; exists QUOTE; by repeat split |].
  destruct (N.eqb_spec c 8) as [-> | H8]; [right; left; exists 98; by repeat split |].
  destruct (N.eqb_spec c 12) as [-> | H12]; [right; left; exists 102; by repeat split |].
  destruct (N.eqb_spec c 10) as [-> | H10]; [right; left; exists 110; by repeat split |].
  destruct (N.eqb_spec c 13) as [-> | H13]; [right; left; exists 114; by repeat split |].
  destruct (N.eqb_spec c 9) as [-> | H9]; [right; left; exists 116; by repeat split |].
  unfold escape_char.
  destruct (N.leb_spec 32 c), (N.leb_spec c 126); ncmp;
    solve [left; repeat split; assumption | right; right; reflexivity].
Qed.

Lemma read_unit_escape_bmp c r :
  c < 65536 ->
  read_unit (escape_char c ++ r) = Some (c, r) /\
  starts_with QUOTE (escape_char c ++ r) = false.
Proof.
  intros Hc.
  destruct (escape_char_bmp c Hc) as [(-> & H1 & H2 & Hq & Hb) | [(e & -> & He & Hs) | ->]].
  - cbn [app read_unit starts_with].
    rewrite (proj2 (N.eqb_neq _ _) Hb), (proj2 (N.eqb_neq _ _) Hq).
    rewrite (proj2 (N.ltb_ge c 32) H1). split; reflexivity.
  - cbn [app read_unit starts_with].
    rewrite N.eqb_refl, (proj2 (N.eqb_neq _ _) He), Hs. split; reflexivity.
  - rewrite <- app_assoc. cbn [app read_unit starts_with].
    rewrite N.eqb_refl. change (117 =? 117) with true. cbn iota.
    rewrite (read_hex4_hex c r Hc). split; reflexivity.
Qed.

Lemma read_string_escape c r fuel :
  is_scalar_value c = true ->
  read_string (S fuel) (escape_char c ++ r) =
  '(t, rest) ← read_string fuel r; Some (c :: t, rest).
Proof.
  intros Hsc. destruct (N.lt_ge_cases c 65536) as [Hc | Hc].
  - destruct (read_unit_escape_bmp c r Hc) as [Hu Hq].
    cbn [read_string]. rewrite Hq, Hu. cbn [mbind option_bind].
    assert (is_high_surrogate c = false) as ->; [| reflexivity].
    unfold is_scalar_value, is_high_surrogate in *. ncmp.
  - assert (c <= 1114111) as Hmax by (unfold is_scalar_value in Hsc; ncmp).
    destruct (surrogate_halves (c - 65536) ltac:(lia)) as (Hs1 & Hs2 & Hq).
    assert (escape_char c =
            [BACKSLASH; 117] ++ hex 4 (55296 + (c - 65536) / 1024)
            ++ [BACKSLASH; 117] ++ hex 4 (56320 + (c - 65536) mod 1024)) as ->.
    { unfold escape_char. rewrite Hs1, Hs2.
      assert ((c <? 65536) = false) as -> by (apply N.ltb_ge; exact Hc).
      destruct (N.leb_spec 32 c), (N.leb_spec c 126),
        (N.eqb_spec c QUOTE), (N.eqb_spec c BACKSLASH),
        (N.eqb_spec c 8), (N.eqb_spec c 12), (N.eqb_spec c 10),
        (N.eqb_spec c 13), (N.eqb_spec c 9);
        cbn [andb negb]; try reflexivity; unfold QUOTE, BACKSLASH in *; lia. }

    pose proof (N.mod_upper_bound (c - 65536) 1024 ltac:(discriminate)) as Hr.
    rewrite <- !app_assoc.
    cbn [read_string app starts_with read_unit].
    change (BACKSLASH =? QUOTE) with false. rewrite N.eqb_refl.
    change (117 =? 117) with true. cbn iota.
    rewrite read_hex4_hex
      by (clear -Hq; set (q := (c - 65536) / 1024) in *; clearbody q; lia).
    cbn [mbind option_bind].
    assert (is_high_surrogate (55296 + (c - 65536) / 1024) = true) as ->.
    { unfold is_high_surrogate. clear -Hq.
      set (q := (c - 65536) / 1024) in *. clearbody q. ncmp. }
    cbn [read_low]. rewrite N.eqb_refl. change (117 =? 117) with true.
    cbn [andb]. rewrite read_hex4_hex
      by (clear -Hr; set (m := (c - 65536) mod 1024) in *; clearbody m; lia).
    cbn [mbind option_bind].
    assert (is_low_surrogate (56320 + (c - 65536) mod 1024) = true) as ->.
    { unfold is_low_surrogate. clear -Hr.
      set (m := (c - 65536) mod 1024) in *. clearbody m. ncmp. }
    assert (65536 + 1024 * (55296 + (c - 65536) / 1024 - 55296)
            + (56320 + (c - 65536) mod 1024 - 56320) = c) as ->; [| reflexivity].
    pose proof (N.Div0.div_mod (c - 65536) 1024) as Hdm.
    set (q := (c - 65536) / 1024) in *. set (m := (c - 65536) mod 1024) in *.
    clearbody q m. lia.
Qed.

Lemma escape_char_length c : (1 <= length (escape_char c))%nat.
Proof.
  unfold escape_char.
  repeat match goal with
         | |- context [if ?b then _ else _] => destruct b
         end;
    rewrite ?length_app; cbn [length lit map list_ascii_of_string]; lia.
Qed.

Lemma escape_length s : (length s <= length (flat_map escape_char s))%nat.
Proof.
  induction s as [| c s IH]; [reflexivity |].
  cbn [flat_map]. rewrite length_app. pose proof (escape_char_length c).
  cbn [length]. lia.
Qed.

Lemma read_string_encode s rest :
  Forall (fun c => is_scalar_value c = true) s ->
  forall fuel, (length s < fuel)%nat ->
  read_string fuel (flat_map escape_char s ++ QUOTE :: rest) = Some (s, rest).
Proof.
  induction 1 as [| c s Hc Hs IH]; intros fuel Hfuel.
  - destruct fuel as [| fuel]; [inversion Hfuel |]. reflexivity.
  - destruct fuel as [| fuel]; [inversion Hfuel |].
    cbn [flat_map]. rewrite <- app_assoc, (read_string_escape c _ fuel Hc).
    rewrite IH by (cbn [length] in Hfuel; lia). reflexivity.
Qed.

Lemma json_dumps_member name val :
  json_dumps [(name, val)] ++ [LF] =
  123 :: QUOTE :: flat_map escape_char name ++
  QUOTE :: 58 :: 32 :: QUOTE :: flat_map escape_char val ++ QUOTE :: 125 :: [LF].
Proof.
  unfold json_dumps, dumps_items, encode_basestring_ascii.
  change (lit "{") with [123]. change (lit "}") with [125].
  change (lit ": ") with [58; 32].
  rewrite app_nil_r, <- !app_assoc. reflexivity.
Qed.

(** A consumer that parses the line written for [markdown] gets back the
    single member ["markdown"] with that very string, provided it is made
    of Unicode scalar values. *)
Lemma loads_dumps_member name val :
  Forall (fun c => is_scalar_value c = true) name ->
  Forall (fun c => is_scalar_value c = true) val ->
  json_loads_member (json_dumps [(name, val)] ++ [LF]) = Some (name, val).
Proof.
  intros Hname Hval. rewrite json_dumps_member. unfold json_loads_member.
  change (expect 123 (123 :: ?s)) with (Some s). cbn [mbind option_bind].
  change (expect QUOTE (QUOTE :: ?s)) with (Some s). cbn [mbind option_bind].
  rewrite (read_string_encode name _ Hname).
  2:{ rewrite length_app. pose proof (escape_length name). cbn [length]. lia. }
  cbn [mbind option_bind].
  change (expect 58 (58 :: ?s)) with (Some s). cbn [mbind option_bind].
  change (expect QUOTE (32 :: QUOTE :: ?s)) with (Some s). cbn [mbind option_bind].
  rewrite (read_string_encode val _ Hval).
  2:{ rewrite length_app. pose proof (escape_length val). cbn [length]. lia. }
  reflexivity.
Qed.

Lemma hexdigit_printable d : d < 16 -> 32 <= hexdigit d <= 126.
Proof. intros Hd. unfold hexdigit. destruct (N.ltb_spec d 10); lia. Qed.

Lemma hex_printable n c : Forall (fun x => 32 <= x <= 126) (hex n c).
Proof.
  revert c. induction n as [| n IH]; intros c; cbn [hex]; [constructor |].
  apply Forall_app. split; [apply IH |].
  constructor; [apply hexdigit_printable, land_15_lt | constructor].
Qed.

(** The escaped text is printable ASCII: no raw line break, control
    character or non-ASCII code point reaches the output. *)
Lemma escape_printable s : Forall (fun x => 32 <= x <= 126) (flat_map escape_char s).
Proof.
  induction s as [| c s IH]; [constructor |].
  cbn [flat_map]. apply Forall_app. split; [| exact IH].
  unfold escape_char.
  repeat match goal with
         | |- context [N.eqb ?a ?b] => destruct (N.eqb_spec a b)
         | |- context [N.leb ?a ?b] => destruct (N.leb_spec a b)
         | |- context [N.ltb ?a ?b] => destruct (N.ltb_spec a b)
         end; cbn [andb negb];
    repeat first [ apply hex_printable | apply Forall_app; split
                 | match goal with
                   | |- Forall _ (lit ?x) =>
                       let l := eval vm_compute in (lit x) in change (lit x) with l
                   end
                 | apply Forall_cons; split; [unfold QUOTE, BACKSLASH; lia |]
                 | apply Forall_nil_2 ].
Qed.

(** C7: when the external OCR call returns a markdown string, the run ends
    with status 0 and an empty standard error, and standard output is one
    line: the JSON object whose only member is ["markdown"], with the
    string escaped.  The escaped string is printable ASCII (line breaks are
    written as escapes), and a JSON reader gets the returned string back
    from the line when it is made of Unicode scalar values. *)
Theorem ocr_success py argv environ ocr kw markdown :
  kw ∈ ocr_calls (run py argv environ ocr) ->
  ocr kw = Returns markdown ->
  exit_status (run py argv environ ocr) = 0%Z /\
  stderr (run py argv environ ocr) = [] /\
  stdout (run py argv environ ocr) =
    lit "{" ++ [QUOTE] ++ lit "markdown" ++ [QUOTE] ++ lit ": "
    ++ [QUOTE] ++ flat_map escape_char markdown ++ [QUOTE] ++ lit "}" ++ [LF] /\
  Forall (fun c => 32 <= c <= 126) (flat_map escape_char markdown) /\
  (Forall (fun c => is_scalar_value c = true) markdown ->
   json_loads_member (stdout (run py argv environ ocr)) = Some (lit "markdown", markdown)).
Proof.
  intros Hin Hret.
  destruct (run_calls_inv _ _ _ _ _ Hin) as (f & pn & _ & _ & _ & ->).
  unfold called. rewrite Hret. cbn [exit_status stderr stdout].
  split; [reflexivity |]. split; [reflexivity |]. split.
  - rewrite json_dumps_member. reflexivity.
  - split; [apply escape_printable |].
    intros Hsc. apply loads_dumps_member; [| exact Hsc].
    repeat constructor.
Qed.

(** A decimal integer string beyond the conversion limit is refused. *)
Lemma py_int_over_limit py s :
  is_decimal s = true ->
  over_limit py (N.of_nat (length (decimal_magnitude s))) = true ->
  py_int py s = inl (exceeds_limit py (N.of_nat (length (decimal_magnitude s)))).
Proof.
  intros Hdec Hover. rewrite (py_int_of_decimal py s Hdec), Hover. reflexivity.
Qed.

(** A run with such a second argument ends before the call. *)
Lemma run_over_limit py argv environ ocr s :
  argv !! 2%nat = Some s ->
  is_decimal s = true ->
  over_limit py (N.of_nat (length (decimal_magnitude s))) = true ->
  run py argv environ ocr =
  failed (exceeds_limit py (N.of_nat (length (decimal_magnitude s)))) [].
Proof.
  intros H2 Hdec Hover.
  destruct (lookup_second_first argv s H2) as [file_path H1].
  rewrite run_unfold, H1, (page_num_of_present py argv s H2 (is_decimal_nonempty s Hdec)).
  rewrite (py_int_over_limit py s Hdec Hover). reflexivity.
Qed.

(** C6, amended: a second argument that is a decimal integer string (an
    optional sign and one or more digits) with no more digits than the
    interpreter's conversion limit allows is parsed, and the external call
    is made with that integer as [page_num] and [argv[1]] as
    [pdf_or_image_path]. *)
Theorem decimal_page_num py argv environ ocr file_path s :
  argv !! 1%nat = Some file_path ->
  argv !! 2%nat = Some s ->
  is_decimal s = true ->
  within_str_digits_limit py s ->
  exists kw, ocr_calls (run py argv environ ocr) = [kw] /\
             kw !! "page_num" = Some (VInt (decimal_value s)) /\
             kw !! "pdf_or_image_path" = Some (VStr file_path).
Proof.
  intros H1 H2 Hdec Hlim.
  rewrite (run_decimal py argv environ ocr file_path s H1 H2 Hdec Hlim).
  eexists. split; [apply called_calls |].
  rewrite kwargs_page_num, kwargs_path. split; reflexivity.
Qed.

(** C9: no check of the sign stands between [int] and the call.  With a
    non-empty second argument, every call made carries as [page_num] the
    very integer [int] returns for it; and whatever that integer is,
    positive, zero or negative, the call is made and the run ends as the
    call decides. *)
Theorem page_num_not_validated py argv environ ocr s :
  argv !! 2%nat = Some s ->
  s <> [] ->
  (forall kw, kw ∈ ocr_calls (run py argv environ ocr) ->
     exists n, py_int py s = inr n /\ kw !! "page_num" = Some (VInt n)) /\
  (forall n, py_int py s = inr n ->
     exists kw, ocr_calls (run py argv environ ocr) = [kw] /\
                kw !! "page_num" = Some (VInt n) /\
                run py argv environ ocr = called ocr kw).
Proof.
  intros H2 Hs. split.
  - intros kw Hin.
    destruct (run_calls_inv _ _ _ _ _ Hin) as (f & pn & _ & Hpn & -> & _).
    rewrite (page_num_of_present py argv s H2 Hs) in Hpn.
    destruct (py_int py s) as [e | n]; [discriminate |].
    injection Hpn as <-. exists n. rewrite kwargs_page_num. split; reflexivity.
  - intros n Hint.
    destruct (lookup_second_first argv s H2) as [file_path H1].
    rewrite (run_parsed py argv environ ocr file_path s n H1 H2 Hint).
    eexists. split; [apply called_calls |].
    rewrite kwargs_page_num. split; reflexivity.
Qed.

(** [int("0")] and [int("-5")], whatever the interpreter's configuration. *)
Example int_0 py : py_int py (lit "0") = inr 0%Z.
Proof. reflexivity. Qed.

Example int_minus_5 py : py_int py (lit "-5") = inr (-5)%Z.
Proof. reflexivity. Qed.

(** ** The theorems at sample invocations *)

Lemma usage_error_witness :
  (length argv_no_args < 2)%nat /\
  exit_status (run sample_py argv_no_args sample_environ (ocr_returning sample_markdown)) = 1%Z /\
  stderr (run sample_py argv_no_args sample_environ (ocr_returning sample_markdown))
    = lit "Usage: typhoon_ocr_runner.py <file_path> [page_num]" ++ [LF] /\
  stdout (run sample_py argv_no_args sample_environ (ocr_returning sample_markdown)) = [] /\
  ocr_calls (run sample_py argv_no_args sample_environ (ocr_returning sample_markdown)) = [].
Proof.
  split; [cbn; lia |].
  apply (usage_error sample_py argv_no_args sample_environ (ocr_returning sample_markdown)).
  cbn; lia.
Defined.

Lemma unparseable_page_num_witness :
  argv_page_3_5 !! 2%nat = Some (lit "3.5") /\
  lit "3.5" <> [] /\
  py_int sample_py (lit "3.5") = inl (invalid_literal sample_py (lit "3.5")) /\
  exit_status (run sample_py argv_page_3_5 sample_environ (ocr_returning sample_markdown)) = 1%Z /\
  stderr (run sample_py argv_page_3_5 sample_environ (ocr_returning sample_markdown))
    = exc_str (invalid_literal sample_py (lit "3.5")) ++ [LF] /\
  stdout (run sample_py argv_page_3_5 sample_environ (ocr_returning sample_markdown)) = [] /\
  ocr_calls (run sample_py argv_page_3_5 sample_environ (ocr_returning sample_markdown)) = [].
Proof.
  split; [reflexivity |]. split; [discriminate |]. split; [reflexivity |].
  apply (unparseable_page_num sample_py argv_page_3_5 sample_environ
           (ocr_returning sample_markdown) (lit "3.5")
           (invalid_literal sample_py (lit "3.5")));
    [reflexivity | discriminate | reflexivity].
Defined.

Example invalid_literal_message :
  stderr (run sample_py argv_page_3_5 sample_environ (ocr_returning sample_markdown))
  = lit "invalid literal for int() with base 10: '3.5'" ++ [LF].
Proof. vm_compute. reflexivity. Qed.

Lemma sample_call_made :
  ocr_calls (run sample_py argv_path_only sample_environ (ocr_raising (lit "rate limited")))
  = [sample_kwargs].
Proof. vm_compute. reflexivity. Qed.

Lemma ocr_failure_witness :
  sample_kwargs ∈ ocr_calls (run sample_py argv_path_only sample_environ
                               (ocr_raising (lit "rate limited"))) /\
  ocr_raising (lit "rate limited") sample_kwargs = Raises (ExternalError (lit "rate limited")) /\
  (ExternalError (lit "rate limited") = ExternalError (lit "rate limited") \/
   ExternalError (lit "rate limited") = ValueError (lit "rate limited") \/
   ExternalError (lit "rate limited") = IndexError (lit "rate limited")) /\
  exit_status (run sample_py argv_path_only sample_environ
                 (ocr_raising (lit "rate limited"))) = 1%Z /\
  stderr (run sample_py argv_path_only sample_environ (ocr_raising (lit "rate limited")))
    = lit "rate limited" ++ [LF] /\
  stdout (run sample_py argv_path_only sample_environ (ocr_raising (lit "rate limited"))) = [].
Proof.
  assert (sample_kwargs ∈ ocr_calls (run sample_py argv_path_only sample_environ
                                       (ocr_raising (lit "rate limited")))) as Hin.
  { rewrite sample_call_made. apply list_elem_of_here. }
  split; [exact Hin |]. split; [reflexivity |]. split; [left; reflexivity |].
  apply (ocr_failure sample_py argv_path_only sample_environ
           (ocr_raising (lit "rate limited")) sample_kwargs
           (ExternalError (lit "rate limited")) (lit "rate limited") Hin);
    [reflexivity | left; reflexivity].
Defined.

(** The run of the specification's example, stream by stream. *)
Example rate_limited_run :
  run sample_py argv_path_only sample_environ (ocr_raising (lit "rate limited"))
  = {| exit_status := 1; stdout := []; stderr := lit "rate limited" ++ [LF];
       ocr_calls := [sample_kwargs] |}.
Proof. vm_compute. reflexivity. Qed.

Lemma sample_call_page_3 :
  ocr_calls (run sample_py argv_page_3 sample_environ (ocr_returning sample_markdown))
  = [sample_kwargs_page 3].
Proof. vm_compute. reflexivity. Qed.

Lemma base_url_precedence_witness :
  sample_kwargs_page 3 ∈ ocr_calls (run sample_py argv_page_3 sample_environ
                                      (ocr_returning sample_markdown)) /\
  sample_kwargs_page 3 !! "base_url" =
    Some (VStr (default (lit "https://api.opentyphoon.ai/v1")
                  (first_nonempty [sample_environ !! "OCR_BASE_URL";
                                   sample_environ !! "OCR_ENDPOINT"]))) /\
  (forall u, sample_environ !! "OCR_BASE_URL" = Some u -> u <> [] ->
             sample_kwargs_page 3 !! "base_url" = Some (VStr u)).
Proof.
  assert (sample_kwargs_page 3 ∈ ocr_calls (run sample_py argv_page_3 sample_environ
                                             (ocr_returning sample_markdown))) as Hin.
  { rewrite sample_call_page_3. apply list_elem_of_here. }
  split; [exact Hin |].
  exact (base_url_precedence sample_py argv_page_3 sample_environ
           (ocr_returning sample_markdown) (sample_kwargs_page 3) Hin).
Defined.

Lemma api_key_precedence_witness :
  sample_kwargs_page 3 ∈ ocr_calls (run sample_py argv_page_3 sample_environ
                                      (ocr_returning sample_markdown)) /\
  sample_kwargs_page 3 !! "api_key" =
    VStr <$> first_nonempty [sample_environ !! "OCR_API_KEY";
                             sample_environ !! "TYPHOON_OCR_API_KEY";
                             sample_environ !! "OPENAI_API_KEY"] /\
  (forall k, sample_environ !! "OCR_API_KEY" = Some k -> k <> [] ->
             sample_kwargs_page 3 !! "api_key" = Some (VStr k)) /\
  ((forall name, name ∈ ["OCR_API_KEY"; "TYPHOON_OCR_API_KEY"; "OPENAI_API_KEY"] ->
      sample_environ !! name = None \/ sample_environ !! name = Some []) ->
   sample_kwargs_page 3 !! "api_key" = None).
Proof.
  assert (sample_kwargs_page 3 ∈ ocr_calls (run sample_py argv_page_3 sample_environ
                                             (ocr_returning sample_markdown))) as Hin.
  { rewrite sample_call_page_3. apply list_elem_of_here. }
  split; [exact Hin |].
  exact (api_key_precedence sample_py argv_page_3 sample_environ
           (ocr_returning sample_markdown) (sample_kwargs_page 3) Hin).
Defined.

(** Without any of the three variables the call has no [api_key], and
    with neither endpoint variable it goes to the default endpoint. *)
Example empty_environment_call :
  ocr_calls (run sample_py argv_path_only ∅ (ocr_returning sample_markdown))
  = [ <["base_url" := VStr (lit "https://api.opentyphoon.ai/v1")]>
        (<["pdf_or_image_path" := VStr (lit "scan.pdf")]> ∅) ].
Proof. vm_compute. reflexivity. Qed.

Lemma page_num_passed_iff_witness :
  (argv_page_empty !! 2%nat = None \/ argv_page_empty !! 2%nat = Some []) /\
  argv_page_empty !! 1%nat = Some (lit "scan.pdf") /\
  (exists kw, ocr_calls (run sample_py argv_page_empty sample_environ
                           (ocr_returning sample_markdown)) = [kw] /\
              kw !! "page_num" = None /\
              kw !! "pdf_or_image_path" = Some (VStr (lit "scan.pdf"))) /\
  (exists s n, argv_page_3 !! 2%nat = Some s /\ s <> [] /\ py_int sample_py s = inr n) /\
  (exists kw, kw ∈ ocr_calls (run sample_py argv_page_3 sample_environ
                               (ocr_returning sample_markdown)) /\
              is_Some (kw !! "page_num")).
Proof.
  assert (exists s n, argv_page_3 !! 2%nat = Some s /\ s <> [] /\
                      py_int sample_py s = inr n) as Hparsed.
  { exists (lit "3"), 3%Z. split; [reflexivity |]. split; [discriminate | reflexivity]. }
  split; [right; reflexivity |]. split; [reflexivity |]. split.
  - apply (proj2 (proj2 (page_num_passed_iff sample_py argv_page_empty sample_environ
                           (ocr_returning sample_markdown))));
      [right; reflexivity | reflexivity].
  - split; [exact Hparsed |].
    apply (proj2 (proj1 (page_num_passed_iff sample_py argv_page_3 sample_environ
                           (ocr_returning sample_markdown)))).
    exact Hparsed.
Defined.

(** C5 as stated fails where [int] raises: with the second argument
    [3.5], present and not empty, no call is made, so no [page_num] is
    passed to any. *)
Lemma nonempty_page_num_not_passed :
  argv_page_3_5 !! 1%nat = Some (lit "scan.pdf") /\
  argv_page_3_5 !! 2%nat = Some (lit "3.5") /\
  lit "3.5" <> [] /\
  ocr_calls (run sample_py argv_page_3_5 sample_environ (ocr_returning sample_markdown)) = [] /\
  ~ ((exists kw, kw ∈ ocr_calls (run sample_py argv_page_3_5 sample_environ
                                   (ocr_returning sample_markdown)) /\
                 is_Some (kw !! "page_num"))
     <-> (exists s, argv_page_3_5 !! 2%nat = Some s /\ s <> [])).
Proof.
  assert (ocr_calls (run sample_py argv_page_3_5 sample_environ
                       (ocr_returning sample_markdown)) = []) as Hcalls.
  { vm_compute. reflexivity. }
  split; [reflexivity |]. split; [reflexivity |]. split; [discriminate |].
  split; [exact Hcalls |].
  intros [_ Hif]. destruct Hif as (kw & Hin & _).
  - exists (lit "3.5"). split; [reflexivity | discriminate].
  - rewrite Hcalls in Hin. inversion Hin.
Qed.

(** The empty string as second argument: the call made is the one of an
    invocation without a second argument. *)
Example empty_page_num_call :
  ocr_calls (run sample_py argv_page_empty sample_environ (ocr_returning sample_markdown))
  = [sample_kwargs].
Proof. vm_compute. reflexivity. Qed.

Lemma ocr_success_witness :
  sample_kwargs_page 3 ∈ ocr_calls (run sample_py argv_page_3 sample_environ
                                      (ocr_returning sample_markdown)) /\
  ocr_returning sample_markdown (sample_kwargs_page 3) = Returns sample_markdown /\
  exit_status (run sample_py argv_page_3 sample_environ (ocr_returning sample_markdown)) = 0%Z /\
  stderr (run sample_py argv_page_3 sample_environ (ocr_returning sample_markdown)) = [] /\
  stdout (run sample_py argv_page_3 sample_environ (ocr_returning sample_markdown)) =
    lit "{" ++ [QUOTE] ++ lit "markdown" ++ [QUOTE] ++ lit ": "
    ++ [QUOTE] ++ flat_map escape_char sample_markdown ++ [QUOTE] ++ lit "}" ++ [LF] /\
  Forall (fun c => 32 <= c <= 126) (flat_map escape_char sample_markdown) /\
  (Forall (fun c => is_scalar_value c = true) sample_markdown ->
   json_loads_member (stdout (run sample_py argv_page_3 sample_environ
                                (ocr_returning sample_markdown)))
   = Some (lit "markdown", sample_markdown)).
Proof.
  assert (sample_kwargs_page 3 ∈ ocr_calls (run sample_py argv_page_3 sample_environ
                                             (ocr_returning sample_markdown))) as Hin.
  { rewrite sample_call_page_3. apply list_elem_of_here. }
  split; [exact Hin |]. split; [reflexivity |].
  apply (ocr_success sample_py argv_page_3 sample_environ
           (ocr_returning sample_markdown) (sample_kwargs_page 3) sample_markdown Hin).
  reflexivity.
Defined.

(** The line written for the markdown text of two lines [# Title] and
    [Body]: the line break is written as backslash, n. *)
Example markdown_line_written :
  stdout (run sample_py argv_page_3 sample_environ (ocr_returning sample_markdown)) =
  lit "{" ++ [QUOTE] ++ lit "markdown" ++ [QUOTE] ++ lit ": "
  ++ [QUOTE] ++ lit "# Title\nBody" ++ [QUOTE] ++ lit "}" ++ [LF].
Proof. vm_compute. reflexivity. Qed.

Example markdown_line_read_back :
  json_loads_member
    (stdout (run sample_py argv_page_3 sample_environ (ocr_returning sample_markdown)))
  = Some (lit "markdown", sample_markdown).
Proof. vm_compute. reflexivity. Qed.

(** Thai KO KAI and an emoji beyond the basic plane: a [\u] escape and a
    surrogate pair. *)
Example markdown_line_non_ascii :
  stdout (run sample_py argv_page_3 sample_environ (ocr_returning [3585; 128512])) =
  lit "{" ++ [QUOTE] ++ lit "markdown" ++ [QUOTE] ++ lit ": "
  ++ [QUOTE] ++ lit "\u0e01\ud83d\ude00" ++ [QUOTE] ++ lit "}" ++ [LF].
Proof. vm_compute. reflexivity. Qed.

Lemma extra_arguments_ignored_witness :
  argv_page_3 !! 1%nat = argv_extra !! 1%nat /\
  argv_page_3 !! 2%nat = argv_extra !! 2%nat /\
  run sample_py argv_page_3 sample_environ (ocr_returning sample_markdown)
  = run sample_py argv_extra sample_environ (ocr_returning sample_markdown).
Proof.
  split; [reflexivity |]. split; [reflexivity |].
  apply (extra_arguments_ignored sample_py argv_page_3 argv_extra sample_environ
           (ocr_returning sample_markdown)); reflexivity.
Defined.

Lemma decimal_page_num_witness :
  argv_page_3 !! 1%nat = Some (lit "scan.pdf") /\
  argv_page_3 !! 2%nat = Some (lit "3") /\
  is_decimal (lit "3") = true /\
  within_str_digits_limit sample_py (lit "3") /\
  decimal_value (lit "3") = 3%Z /\
  exists kw, ocr_calls (run sample_py argv_page_3 sample_environ
                          (ocr_returning sample_markdown)) = [kw] /\
             kw !! "page_num" = Some (VInt (decimal_value (lit "3"))) /\
             kw !! "pdf_or_image_path" = Some (VStr (lit "scan.pdf")).
Proof.
  assert (within_str_digits_limit sample_py (lit "3")) as Hlim.
  { right. vm_compute. discriminate. }
  split; [reflexivity |]. split; [reflexivity |]. split; [reflexivity |].
  split; [exact Hlim |]. split; [reflexivity |].
  apply (decimal_page_num sample_py argv_page_3 sample_environ
           (ocr_returning sample_markdown) (lit "scan.pdf") (lit "3"));
    [reflexivity | reflexivity | reflexivity | exact Hlim].
Defined.

Lemma page_num_not_validated_witness :
  argv_page_minus_5 !! 2%nat = Some (lit "-5") /\
  lit "-5" <> [] /\
  py_int sample_py (lit "-5") = inr (-5)%Z /\
  (forall kw, kw ∈ ocr_calls (run sample_py argv_page_minus_5 sample_environ
                                (ocr_returning sample_markdown)) ->
     exists n, py_int sample_py (lit "-5") = inr n /\ kw !! "page_num" = Some (VInt n)) /\
  (forall n, py_int sample_py (lit "-5") = inr n ->
     exists kw, ocr_calls (run sample_py argv_page_minus_5 sample_environ
                             (ocr_returning sample_markdown)) = [kw] /\
                kw !! "page_num" = Some (VInt n) /\
                run sample_py argv_page_minus_5 sample_environ (ocr_returning sample_markdown)
                = called (ocr_returning sample_markdown) kw).
Proof.
  split; [reflexivity |]. split; [discriminate |]. split; [reflexivity |].
  apply (page_num_not_validated sample_py argv_page_minus_5 sample_environ
           (ocr_returning sample_markdown) (lit "-5")); [reflexivity | discriminate].
Defined.

(** The call made for the second argument [-5]. *)
Example page_num_negative_call :
  ocr_calls (run sample_py argv_page_minus_5 sample_environ (ocr_returning sample_markdown))
  = [sample_kwargs_page (-5)].
Proof. vm_compute. reflexivity. Qed.

(** Page number zero reaches the call as it is. *)
Example page_num_zero_call :
  ocr_calls (run sample_py argv_page_0 sample_environ (ocr_returning sample_markdown))
  = [sample_kwargs_page 0].
Proof. vm_compute. reflexivity. Qed.

(** ** Beyond the conversion limit *)

(** C6 as stated fails under the default limit of 4300 digits: the second
    argument made of 4301 digits [1] is a decimal integer string, yet
    [int] raises, no call is made and the run ends with status 1. *)
Lemma long_digits_refused :
  argv_long !! 1%nat = Some (lit "scan.pdf") /\
  argv_long !! 2%nat = Some long_digits /\
  is_decimal long_digits = true /\
  max_str_digits sample_py = 4300 /\
  ocr_calls (run sample_py argv_long sample_environ (ocr_returning sample_markdown)) = [] /\
  exit_status (run sample_py argv_long sample_environ (ocr_returning sample_markdown)) = 1%Z /\
  stderr (run sample_py argv_long sample_environ (ocr_returning sample_markdown)) =
    lit "Exceeds the limit (4300 digits) for integer string conversion: value has 4301 digits; use sys.set_int_max_str_digits() to increase the limit"
    ++ [LF] /\
  ~ (exists kw, kw ∈ ocr_calls (run sample_py argv_long sample_environ
                                  (ocr_returning sample_markdown)) /\
                kw !! "page_num" = Some (VInt (decimal_value long_digits))).
Proof.
  assert (run sample_py argv_long sample_environ (ocr_returning sample_markdown)
          = failed (exceeds_limit sample_py 4301) []) as ->.
  { vm_compute. reflexivity. }
  split; [reflexivity |].
  split; [reflexivity |]. split; [vm_compute; reflexivity |]. split; [reflexivity |].
  split; [reflexivity |]. split; [reflexivity |]. split; [vm_compute; reflexivity |].
  intros (kw & Hin & _). cbn in Hin. inversion Hin.
Qed.

(** The same with a minus sign in front: [int] raises and no call is
    made. *)
Example negative_long_digits_refused :
  argv_long_negative !! 2%nat = Some (MINUS :: long_digits) /\
  is_decimal (MINUS :: long_digits) = true /\
  max_str_digits sample_py = 4300 /\
  ocr_calls (run sample_py argv_long_negative sample_environ
               (ocr_returning sample_markdown)) = [] /\
  exit_status (run sample_py argv_long_negative sample_environ
                 (ocr_returning sample_markdown)) = 1%Z /\
  ~ (exists kw, kw ∈ ocr_calls (run sample_py argv_long_negative sample_environ
                                  (ocr_returning sample_markdown)) /\
                kw !! "page_num" = Some (VInt (decimal_value (MINUS :: long_digits)))).
Proof.
  assert (run sample_py argv_long_negative sample_environ (ocr_returning sample_markdown)
          = failed (exceeds_limit sample_py 4301) []) as ->.
  { vm_compute. reflexivity. }
  split; [reflexivity |]. split; [vm_compute; reflexivity |]. split; [reflexivity |].
  split; [reflexivity |]. split; [reflexivity |].
  intros (kw & Hin & _). cbn in Hin. inversion Hin.
Qed.

(** * Further properties of the runner *)

(** ** When the external call happens, and how a run ends *)

(** The external capability is called at most once, whatever it does; it
    is skipped exactly on the usage error and when [int] raises on a
    non-empty second argument; and the arguments of the call are fixed
    before the call: they are the same whatever the capability does. *)
Theorem ocr_called_at_most_once py argv environ ocr :
  (length (ocr_calls (run py argv environ ocr)) <= 1)%nat /\
  (ocr_calls (run py argv environ ocr) = [] <->
   (length argv < 2)%nat \/
   exists s e, argv !! 2%nat = Some s /\ s <> [] /\ py_int py s = inl e) /\
  (forall ocr', ocr_calls (run py argv environ ocr')
                = ocr_calls (run py argv environ ocr)).
Proof.
  assert (forall o, ocr_calls (run py argv environ o) =
                    match argv !! 1%nat, page_num_of py argv with
                    | Some f, inr pn =>
                        [build_kwargs f (resolve_base_url environ)
                           (resolve_api_key environ) pn]
                    | _, _ => []
                    end) as Hcalls.
  { intros o. rewrite run_unfold.
    destruct (argv !! 1%nat) as [f |]; [| reflexivity].
    destruct (page_num_of py argv) as [e | pn]; [reflexivity | apply called_calls]. }
  split; [| split].
  - rewrite Hcalls. destruct (argv !! 1%nat), (page_num_of py argv); cbn; lia.
  - rewrite Hcalls. unfold page_num_of.
    destruct (argv !! 1%nat) as [f |] eqn:H1.
    + apply lookup_lt_Some in H1.
      destruct (argv !! 2%nat) as [[| ch a2] |] eqn:H2.
      * split; [discriminate |]. intros [Hlen | (s & e & [= <-] & Hs & _)]; [lia | contradiction].
      * destruct (py_int py (ch :: a2)) as [e | n] eqn:Hint.
        -- split; [| reflexivity]. intros _. right. exists (ch :: a2), e.
           split; [reflexivity |]. split; [discriminate | exact Hint].
        -- split; [discriminate |].
           intros [Hlen | (s & e & [= <-] & _ & He)]; [lia | congruence].
      * split; [discriminate |]. intros [Hlen | (s & e & [=] & _)]. lia.
    + apply lookup_ge_None in H1. split; [intros _; left; lia | reflexivity].
  - intros ocr'. rewrite !Hcalls. reflexivity.
Qed.

Lemma line_not_empty (text : str) : text ++ [LF] <> [].
Proof. intros H. apply app_eq_nil in H as [_ H]. discriminate H. Qed.

(** Standard output is written exactly when the call was made and
    returned.  A run that writes it ends with status 0 and an empty
    standard error; a run that writes to standard error, be it the guard of
    the script or the interpreter ending the process on what the guard does
    not catch, leaves standard output empty. *)
Theorem stdout_iff_ocr_returned py argv environ ocr :
  (stdout (run py argv environ ocr) <> [] <->
   exists kw markdown,
     ocr_calls (run py argv environ ocr) = [kw] /\ ocr kw = Returns markdown) /\
  (stdout (run py argv environ ocr) <> [] ->
   exit_status (run py argv environ ocr) = 0%Z /\ stderr (run py argv environ ocr) = []) /\
  (stderr (run py argv environ ocr) <> [] -> stdout (run py argv environ ocr) = []).
Proof.
  assert (forall e, ~ exists kw markdown,
              ocr_calls (failed e []) = [kw] /\ ocr kw = Returns markdown) as Hnone.
  { intros e (kw & md & Hcall & _). discriminate Hcall. }
  rewrite run_unfold.
  destruct (argv !! 1%nat) as [f |].
  2:{ split; [split; [intros H; contradiction H; reflexivity | intros H; destruct (Hnone _ H)] |].
      split; [intros H; contradiction H; reflexivity | reflexivity]. }
  destruct (page_num_of py argv) as [e | pn].
  { split; [split; [intros H; contradiction H; reflexivity | intros H; destruct (Hnone _ H)] |].
    split; [intros H; contradiction H; reflexivity | reflexivity]. }
  unfold called.
  destruct (ocr _) as [md | e | status err] eqn:Hocr; cbn [stdout stderr exit_status ocr_calls failed].
  - split; [split; [intros _; eauto | intros _; apply line_not_empty] |].
    split; [intros _; split; reflexivity | intros H; contradiction H; reflexivity].
  - split; [split; [intros H; contradiction H; reflexivity |] |].
    + intros (kw & md & Hcall & Hret). injection Hcall as <-. congruence.
    + split; [intros H; contradiction H; reflexivity | reflexivity].
  - split; [split; [intros H; contradiction H; reflexivity |] |].
    + intros (kw & md & Hcall & Hret). injection Hcall as <-. congruence.
    + split; [intros H; contradiction H; reflexivity | reflexivity].
Qed.

(** [int] raises one of two errors. *)
Lemma py_int_raises py s e :
  py_int py s = inl e ->
  e = invalid_literal py s \/
  exists digits, max_str_digits py < digits /\ e = exceeds_limit py digits.
Proof.
  unfold py_int. destruct (split_sign _) as [sign b].
  destruct (starts_with UNDERSCORE b); [intros [= <-]; left; reflexivity |].
  destruct (scan_digits b 0 0 0%Z) as [[[[prev digits] val] rest] |];
    [| intros [= <-]; left; reflexivity].
  destruct (prev =? UNDERSCORE); [intros [= <-]; left; reflexivity |].
  destruct (over_limit py digits) eqn:Hover.
  - intros [= <-]. right. exists digits. split; [| reflexivity].
    unfold over_limit in Hover.
    apply andb_true_iff in Hover as [_ Hover]. apply N.ltb_lt. exact Hover.
  - destruct (digits =? 0); [intros [= <-]; left; reflexivity |].
    destruct (skip_spaces rest); [discriminate | intros [= <-]; left; reflexivity].
Qed.

(** A run without a call is a failure of one of two kinds, told apart by
    the text on standard error: the usage line, when fewer than two
    arguments are given, or the message of the [ValueError] of [int] on a
    non-empty second argument (an invalid literal, or more digits than the
    conversion limit allows).  It ends with status 1 and an empty standard
    output. *)
Theorem failure_before_call py argv environ ocr :
  ocr_calls (run py argv environ ocr) = [] ->
  exit_status (run py argv environ ocr) = 1%Z /\
  stdout (run py argv environ ocr) = [] /\
  (((length argv < 2)%nat /\
    stderr (run py argv environ ocr)
    = lit "Usage: typhoon_ocr_runner.py <file_path> [page_num]" ++ [LF])
   \/ exists s, argv !! 2%nat = Some s /\ s <> [] /\
        (stderr (run py argv environ ocr)
         = lit "invalid literal for int() with base 10: " ++ take 200 (repr py s) ++ [LF]
         \/ exists digits, max_str_digits py < digits /\
              stderr (run py argv environ ocr)
              = lit "Exceeds the limit (" ++ format_d (max_str_digits py)
                ++ lit " digits) for integer string conversion: value has "
                ++ format_d digits
                ++ lit " digits; use sys.set_int_max_str_digits() to increase the limit"
                ++ [LF])).
Proof.
  rewrite run_unfold. unfold page_num_of.
  destruct (argv !! 1%nat) as [f |] eqn:H1.
  2:{ intros _. apply lookup_ge_None in H1.
      split; [reflexivity |]. split; [reflexivity |]. left. split; [lia | reflexivity]. }
  destruct (argv !! 2%nat) as [[| ch a2] |] eqn:H2.
  - rewrite called_calls. discriminate.
  - destruct (py_int py (ch :: a2)) as [e | n] eqn:Hint;
      [| rewrite called_calls; discriminate].
    intros _. split; [reflexivity |]. split; [reflexivity |].
    right. exists (ch :: a2). split; [reflexivity |]. split; [discriminate |].
    destruct (py_int_raises py _ e Hint) as [-> | (digits & Hlim & ->)].
    + left. cbn [failed stderr exc_str invalid_literal].
      rewrite <- app_assoc. reflexivity.
    + right. exists digits. split; [exact Hlim |].
      cbn [failed stderr exc_str exceeds_limit].
      rewrite <- !app_assoc. reflexivity.
  - rewrite called_calls. discriminate.
Qed.

(** Standard output is empty or exactly one line: printable ASCII followed
    by one line break, whatever text the external capability returned. *)
Theorem stdout_one_line py argv environ ocr :
  stdout (run py argv environ ocr) = [] \/
  exists line, stdout (run py argv environ ocr) = line ++ [LF] /\
               Forall (fun c => 32 <= c <= 126) line.
Proof.
  rewrite run_unfold.
  destruct (argv !! 1%nat) as [f |]; [| left; reflexivity].
  destruct (page_num_of py argv) as [e | pn]; [left; reflexivity |].
  unfold called.
  destruct (ocr _) as [md | e | status err]; [| left; reflexivity | left; reflexivity].
  right. exists (json_dumps [(lit "markdown", md)]). split; [reflexivity |].
  unfold json_dumps, dumps_items, encode_basestring_ascii.
  repeat first [ apply escape_printable | apply Forall_app; split
               | match goal with
                 | |- Forall _ (lit ?x) =>
                     let l := eval vm_compute in (lit x) in change (lit x) with l
                 end
               | apply Forall_cons; split; [unfold QUOTE; lia |]
               | apply Forall_nil_2 ].
Qed.

(** ** The keyword arguments of the call *)

Lemma truthy_str v : truthy v = true -> v <> VNone.
Proof. intros H ->. discriminate. Qed.

Lemma resolve_base_url_nonempty environ :
  exists u, u <> [] /\ resolve_base_url environ = VStr u.
Proof.
  rewrite resolve_base_url_spec. eexists. split; [| reflexivity].
  cbn [first_nonempty].
  destruct (environ !! "OCR_BASE_URL") as [[| c1 v1] |];
    destruct (environ !! "OCR_ENDPOINT") as [[| c2 v2] |]; discriminate.
Qed.

Lemma resolve_api_key_nonempty environ :
  truthy (resolve_api_key environ) = true ->
  exists k, k <> [] /\ resolve_api_key environ = VStr k.
Proof.
  unfold resolve_api_key, getenv, py_or.
  destruct (environ !! "OCR_API_KEY") as [[| c1 v1] |];
    destruct (environ !! "TYPHOON_OCR_API_KEY") as [[| c2 v2] |];
    destruct (environ !! "OPENAI_API_KEY") as [[| c3 v3] |];
    cbn; intros H; try discriminate H; eexists; (split; [| reflexivity]); discriminate.
Qed.

(** Every call has the shape the external capability expects: no keyword
    beyond the four, [pdf_or_image_path] the string [argv[1]] as it is,
    [base_url] a string that is not empty, [api_key], when there, a string
    that is not empty, and [page_num], when there, an integer. *)
Theorem kwargs_shape py argv environ ocr kw :
  kw ∈ ocr_calls (run py argv environ ocr) ->
  (forall name, is_Some (kw !! name) -> name ∈ kwargs_names) /\
  (exists file_path, argv !! 1%nat = Some file_path /\
                     kw !! "pdf_or_image_path" = Some (VStr file_path)) /\
  (exists u, u <> [] /\ kw !! "base_url" = Some (VStr u)) /\
  (forall v, kw !! "api_key" = Some v -> exists k, k <> [] /\ v = VStr k) /\
  (forall v, kw !! "page_num" = Some v -> exists n, v = VInt n).
Proof.
  intros Hin.
  destruct (run_calls_inv _ _ _ _ _ Hin) as (f & pn & H1 & Hpn & -> & _).
  split; [| split; [| split; [| split]]].
  - intros name [v Hv]. unfold kwargs_names.
    destruct (decide (name = "pdf_or_image_path")) as [-> | Hn1]; [set_solver |].
    destruct (decide (name = "base_url")) as [-> | Hn2]; [set_solver |].
    destruct (decide (name = "api_key")) as [-> | Hn3]; [set_solver |].
    destruct (decide (name = "page_num")) as [-> | Hn4]; [set_solver |].
    exfalso. unfold build_kwargs in Hv.
    destruct (truthy (resolve_api_key environ)), pn; by simplify_map_eq.
  - exists f. split; [exact H1 | apply kwargs_path].
  - destruct (resolve_base_url_nonempty environ) as (u & Hu & Heq).
    exists u. split; [exact Hu |]. rewrite kwargs_base_url, Heq. reflexivity.
  - intros v. rewrite kwargs_api_key.
    destruct (truthy (resolve_api_key environ)) eqn:Ht; [| discriminate].
    intros [= <-]. apply resolve_api_key_nonempty, Ht.
  - intros v. rewrite kwargs_page_num. unfold page_num_of in Hpn.
    destruct (argv !! 2%nat) as [[| ch a2] |].
    + injection Hpn as <-. discriminate.
    + destruct (py_int py (ch :: a2)) as [e | n]; [discriminate |].
      injection Hpn as <-. intros [= <-]. eauto.
    + injection Hpn as <-. discriminate.
Qed.

(** The file path is never inspected: replacing [argv[1]] by any other
    string, the empty one included, replaces [pdf_or_image_path] in the
    call and changes nothing else of it. *)
Theorem file_path_verbatim py argv environ ocr ocr' file_path file_path' :
  argv !! 1%nat = Some file_path ->
  ocr_calls (run py (<[1%nat := file_path']> argv) environ ocr')
  = (fun kw => <["pdf_or_image_path" := VStr file_path']> kw)
      <$> ocr_calls (run py argv environ ocr).
Proof.
  intros H1. pose proof (lookup_lt_Some _ _ _ H1) as Hlen.
  rewrite !run_unfold, H1, list_lookup_insert_eq by exact Hlen.
  assert (page_num_of py (<[1%nat := file_path']> argv) = page_num_of py argv) as ->.
  { unfold page_num_of. rewrite list_lookup_insert_ne by discriminate. reflexivity. }
  destruct (page_num_of py argv) as [e | pn]; [reflexivity |].
  rewrite !called_calls. cbn [fmap list_fmap]. f_equal.
  unfold build_kwargs.
  destruct (truthy (resolve_api_key environ)), pn;
    apply map_eq; intros name;
    destruct (decide (name = "pdf_or_image_path")) as [-> | Hn]; by simplify_map_eq.
Qed.

(** ** The environment *)





(** ** Blank and padded page numbers *)

Lemma space_is_ascii ch : Py_ISSPACE ch = true -> is_ascii ch = true.
Proof. unfold Py_ISSPACE, is_ascii. intros H. ncmp. Qed.

Lemma spaces_are_ascii ws : forallb Py_ISSPACE ws = true -> forallb is_ascii ws = true.
Proof.
  intros Hws. apply forallb_forall. intros x Hx.
  apply space_is_ascii. eapply forallb_forall in Hws; eauto.
Qed.

Lemma skip_spaces_app ws b :
  forallb Py_ISSPACE ws = true -> skip_spaces (ws ++ b) = skip_spaces b.
Proof.
  induction ws as [| ch ws IH]; [reflexivity |].
  cbn [forallb app skip_spaces]. intros H.
  apply andb_true_iff in H as [-> Hws]. exact (IH Hws).
Qed.

Lemma skip_spaces_all ws : forallb Py_ISSPACE ws = true -> skip_spaces ws = [].
Proof.
  intros Hws. rewrite <- (app_nil_r ws), (skip_spaces_app ws [] Hws). reflexivity.
Qed.

(** [int] on a string of nothing but spaces, tabs and line breaks. *)
Lemma py_int_blank py s :
  forallb Py_ISSPACE s = true -> py_int py s = inl (invalid_literal py s).
Proof.
  intros Hs. unfold py_int, transform_decimal_and_space.
  rewrite (spaces_are_ascii s Hs), (skip_spaces_all s Hs). reflexivity.
Qed.

(** Only the empty string stands for an absent page number.  A second
    argument made of blanks (spaces, tabs, line breaks) is handed to
    [int], which raises: status 1, the message of the [ValueError] on
    standard error, no call. *)
Theorem blank_page_num_rejected py argv environ ocr s :
  argv !! 2%nat = Some s ->
  s <> [] ->
  forallb Py_ISSPACE s = true ->
  exit_status (run py argv environ ocr) = 1%Z /\
  ocr_calls (run py argv environ ocr) = [] /\
  stdout (run py argv environ ocr) = [] /\
  stderr (run py argv environ ocr)
  = lit "invalid literal for int() with base 10: " ++ take 200 (repr py s) ++ [LF].
Proof.
  intros H2 Hs Hblank.
  destruct (lookup_second_first argv s H2) as [file_path H1].
  rewrite run_unfold, H1, (page_num_of_present py argv s H2 Hs), (py_int_blank py s Hblank).
  cbn [failed exit_status ocr_calls stdout stderr exc_str invalid_literal].
  rewrite <- app_assoc. repeat split.
Qed.

(** The digit scan stops at the first character that is neither a digit
    nor an underscore. *)
Lemma scan_digits_until d rest :
  forallb is_digit d = true ->
  match rest with
  | [] => True
  | ch :: _ => is_digit ch = false /\ ch <> UNDERSCORE
  end ->
  forall prev digits val,
    prev <> UNDERSCORE ->
    exists last,
      last <> UNDERSCORE /\
      scan_digits (d ++ rest) prev digits val =
      Some (last, digits + N.of_nat (length d),
            fold_left (fun acc ch => (10 * acc + Z.of_N (ch - 48))%Z) d val, rest).
Proof.
  intros Hd Hrest. induction d as [| ch d IH]; intros prev digits val Hprev.
  - exists prev. split; [assumption |]. cbn [app length fold_left].
    rewrite N.add_0_r. destruct rest as [| ch rest]; [reflexivity |].
    destruct Hrest as [Hdig Hne]. cbn [scan_digits].
    rewrite (proj2 (N.eqb_neq _ _) Hne), Hdig. reflexivity.
  - cbn in Hd. apply andb_true_iff in Hd as [Hch Hd].
    assert (ch <> UNDERSCORE) as Hne.
    { intros ->. discriminate. }
    destruct (IH Hd ch (digits + 1) (10 * val + Z.of_N (ch - 48))%Z Hne)
      as (last & Hlast & Heq).
    exists last. split; [assumption |].
    cbn [app scan_digits]. rewrite (proj2 (N.eqb_neq _ _) Hne), Hch, Heq.
    cbn [length fold_left]. do 4 f_equal. lia.
Qed.

Lemma space_stops_scan ws :
  forallb Py_ISSPACE ws = true ->
  match ws with
  | [] => True
  | ch :: _ => is_digit ch = false /\ ch <> UNDERSCORE
  end.
Proof.
  destruct ws as [| ch ws]; [trivial |]. cbn [forallb]. intros H.
  apply andb_true_iff in H as [Hch _]. unfold Py_ISSPACE, is_digit, UNDERSCORE in *.
  split; [| intros ->; discriminate]. ncmp.
Qed.

Lemma split_sign_app s t :
  s <> [] -> split_sign (s ++ t) = (fst (split_sign s), snd (split_sign s) ++ t).
Proof.
  destruct s as [| ch s]; [contradiction |]. intros _.
  unfold split_sign. cbn [app starts_with tail].
  destruct (ch =? PLUS); [reflexivity |]. destruct (ch =? MINUS); reflexivity.
Qed.

Lemma starts_with_app ch s t : s <> [] -> starts_with ch (s ++ t) = starts_with ch s.
Proof. destruct s; [contradiction | reflexivity]. Qed.

(** [int] strips blanks around a decimal integer string. *)
Lemma py_int_padded py ws1 s ws2 :
  forallb Py_ISSPACE ws1 = true ->
  forallb Py_ISSPACE ws2 = true ->
  is_decimal s = true ->
  within_str_digits_limit py s ->
  py_int py (ws1 ++ s ++ ws2) = inr (decimal_value s).
Proof.
  intros Hws1 Hws2 Hdec Hlim.
  destruct (decimal_shape s Hdec) as (Hascii & Hskip & Hsign & Hund).
  pose proof (is_decimal_nonempty s Hdec) as Hs.
  pose proof (within_limit_not_over py s Hlim) as Hover.
  unfold is_decimal in Hdec. apply andb_true_iff in Hdec as [Hne Hdig].
  apply negb_true_iff, bool_decide_eq_false in Hne.
  destruct (scan_digits_until _ ws2 Hdig (space_stops_scan ws2 Hws2)
              0 0 0%Z ltac:(discriminate)) as (last & Hlast & Hscan).
  rewrite N.add_0_l in Hscan.
  assert (skip_spaces (s ++ ws2) = s ++ ws2) as Hskip'.
  { destruct s as [| ch s']; [contradiction |]. cbn [app skip_spaces] in *.
    destruct (Py_ISSPACE ch); [| reflexivity].
    exfalso. clear -Hskip.
    assert (forall b, length (skip_spaces b) <= length b)%nat as Hle.
    { induction b as [| c b IH]; cbn; [lia |]. destruct (Py_ISSPACE c); cbn; lia. }
    pose proof (Hle s') as H. rewrite Hskip in H. cbn in H. lia. }
  unfold py_int, transform_decimal_and_space.
  rewrite !forallb_app, (spaces_are_ascii ws1 Hws1), Hascii, (spaces_are_ascii ws2 Hws2).
  cbn [andb]. rewrite (skip_spaces_app ws1 _ Hws1), Hskip'.
  rewrite (split_sign_app s ws2 Hs), Hsign. cbn [fst snd].
  rewrite (starts_with_app _ _ ws2 Hne), Hund, Hscan.
  rewrite (proj2 (N.eqb_neq _ _) Hlast), Hover.
  assert ((N.of_nat (length (decimal_magnitude s)) =? 0) = false) as ->.
  { apply N.eqb_neq. destruct (decimal_magnitude s); [contradiction | cbn; lia]. }
  rewrite (skip_spaces_all ws2 Hws2). f_equal. unfold decimal_value, digits_value.
  destruct (starts_with MINUS s); lia.
Qed.

(** A page number with blanks around it (a trailing line break, say) is
    taken for the number: the call is made with the integer the digits
    denote. *)
Theorem padded_page_num_accepted py argv environ ocr file_path ws1 s ws2 :
  argv !! 1%nat = Some file_path ->
  argv !! 2%nat = Some (ws1 ++ s ++ ws2) ->
  forallb Py_ISSPACE ws1 = true ->
  forallb Py_ISSPACE ws2 = true ->
  is_decimal s = true ->
  within_str_digits_limit py s ->
  exists kw, ocr_calls (run py argv environ ocr) = [kw] /\
             kw !! "page_num" = Some (VInt (decimal_value s)) /\
             kw !! "pdf_or_image_path" = Some (VStr file_path).
Proof.
  intros H1 H2 Hws1 Hws2 Hdec Hlim.
  rewrite (run_parsed py argv environ ocr file_path _ _ H1 H2
             (py_int_padded py ws1 s ws2 Hws1 Hws2 Hdec Hlim)).
  eexists. split; [apply called_calls |].
  rewrite kwargs_page_num, kwargs_path. split; reflexivity.
Qed.

(** ** The text behind an output line *)

(** The output line determines the text: two successful runs, of whatever
    invocations, that write the same line were given the same markdown
    string by the external capability, as long as both strings are made of
    Unicode scalar values. *)
Theorem markdown_recoverable py argv environ ocr kw markdown
    py' argv' environ' ocr' kw' markdown' :
  kw ∈ ocr_calls (run py argv environ ocr) ->
  ocr kw = Returns markdown ->
  kw' ∈ ocr_calls (run py' argv' environ' ocr') ->
  ocr' kw' = Returns markdown' ->
  Forall (fun c => is_scalar_value c = true) markdown ->
  Forall (fun c => is_scalar_value c = true) markdown' ->
  stdout (run py argv environ ocr) = stdout (run py' argv' environ' ocr') ->
  markdown = markdown'.
Proof.
  intros Hin Hret Hin' Hret' Hsc Hsc'.
  destruct (run_calls_inv _ _ _ _ _ Hin) as (f & pn & _ & _ & _ & ->).
  destruct (run_calls_inv _ _ _ _ _ Hin') as (f' & pn' & _ & _ & _ & ->).
  unfold called. rewrite Hret, Hret'. cbn [stdout]. intros Heq.
  assert (Forall (fun c => is_scalar_value c = true) (lit "markdown")) as Hname
    by repeat constructor.
  pose proof (loads_dumps_member _ _ Hname Hsc) as Hback.
  rewrite Heq, (loads_dumps_member _ _ Hname Hsc') in Hback.
  congruence.
Qed.

(** Without that proviso the line does not determine the text: a high and
    a low surrogate next to each other are written like the code point
    they would encode. *)
Example surrogates_share_a_line :
  stdout (run sample_py argv_path_only sample_environ (ocr_returning [55296; 56320]))
  = stdout (run sample_py argv_path_only sample_environ (ocr_returning [65536])).
Proof. vm_compute. reflexivity. Qed.

(** ** The further properties at sample invocations *)

Lemma failure_before_call_witness :
  ocr_calls (run sample_py argv_long sample_environ (ocr_returning sample_markdown)) = [] /\
  exit_status (run sample_py argv_long sample_environ (ocr_returning sample_markdown)) = 1%Z /\
  stdout (run sample_py argv_long sample_environ (ocr_returning sample_markdown)) = [] /\
  (((length argv_long < 2)%nat /\
    stderr (run sample_py argv_long sample_environ (ocr_returning sample_markdown))
    = lit "Usage: typhoon_ocr_runner.py <file_path> [page_num]" ++ [LF])
   \/ exists s, argv_long !! 2%nat = Some s /\ s <> [] /\
        (stderr (run sample_py argv_long sample_environ (ocr_returning sample_markdown))
         = lit "invalid literal for int() with base 10: "
           ++ take 200 (repr sample_py s) ++ [LF]
         \/ exists digits, max_str_digits sample_py < digits /\
              stderr (run sample_py argv_long sample_environ (ocr_returning sample_markdown))
              = lit "Exceeds the limit (" ++ format_d (max_str_digits sample_py)
                ++ lit " digits) for integer string conversion: value has "
                ++ format_d digits
                ++ lit " digits; use sys.set_int_max_str_digits() to increase the limit"
                ++ [LF])).
Proof.
  assert (ocr_calls (run sample_py argv_long sample_environ
                       (ocr_returning sample_markdown)) = []) as Hnone.
  { vm_compute. reflexivity. }
  split; [exact Hnone |].
  exact (failure_before_call sample_py argv_long sample_environ
           (ocr_returning sample_markdown) Hnone).
Defined.

Lemma kwargs_shape_witness :
  sample_kwargs_page 3 ∈ ocr_calls (run sample_py argv_page_3 sample_environ
                                      (ocr_returning sample_markdown)) /\
  (forall name, is_Some (sample_kwargs_page 3 !! name) -> name ∈ kwargs_names) /\
  (exists file_path, argv_page_3 !! 1%nat = Some file_path /\
                     sample_kwargs_page 3 !! "pdf_or_image_path" = Some (VStr file_path)) /\
  (exists u, u <> [] /\ sample_kwargs_page 3 !! "base_url" = Some (VStr u)) /\
  (forall v, sample_kwargs_page 3 !! "api_key" = Some v -> exists k, k <> [] /\ v = VStr k) /\
  (forall v, sample_kwargs_page 3 !! "page_num" = Some v -> exists n, v = VInt n).
Proof.
  assert (sample_kwargs_page 3 ∈ ocr_calls (run sample_py argv_page_3 sample_environ
                                             (ocr_returning sample_markdown))) as Hin.
  { rewrite sample_call_page_3. apply list_elem_of_here. }
  split; [exact Hin |].
  exact (kwargs_shape sample_py argv_page_3 sample_environ
           (ocr_returning sample_markdown) (sample_kwargs_page 3) Hin).
Defined.

Lemma file_path_verbatim_witness :
  argv_page_3 !! 1%nat = Some (lit "scan.pdf") /\
  ocr_calls (run sample_py (<[1%nat := []]> argv_page_3) sample_environ
               (ocr_raising (lit "no such file")))
  = (fun kw => <["pdf_or_image_path" := VStr []]> kw)
      <$> ocr_calls (run sample_py argv_page_3 sample_environ
                       (ocr_returning sample_markdown)).
Proof.
  split; [reflexivity |].
  apply (file_path_verbatim sample_py argv_page_3 sample_environ
           (ocr_returning sample_markdown) (ocr_raising (lit "no such file"))
           (lit "scan.pdf") []).
  reflexivity.
Defined.

(** With the empty string as file path the call is still made. *)
Example empty_file_path_call :
  ocr_calls (run sample_py argv_other_path sample_environ (ocr_returning sample_markdown))
  = [<["pdf_or_image_path" := VStr []]> (sample_kwargs_page 3)].
Proof. vm_compute. reflexivity. Qed.


(** The two interpreters part ways on [long_digits], and so do the runs:
    the hypothesis on [int] cannot be dropped. *)
Example limit_changes_the_run :
  py_int sample_py long_digits <> py_int no_limit_py long_digits /\
  ocr_calls (run sample_py argv_long sample_environ (ocr_returning sample_markdown)) = [] /\
  length (ocr_calls (run no_limit_py argv_long sample_environ
                       (ocr_returning sample_markdown))) = 1%nat.
Proof.
  split; [| split; vm_compute; reflexivity].
  intros H. vm_compute in H. discriminate H.
Qed.

(** What lets through the guard: a [SystemExit(3)] out of the external
    capability ends the run with status 3 and both streams empty. *)
Example system_exit_passes_the_guard :
  run sample_py argv_path_only sample_environ (fun _ => Escapes 3 [])
  = {| exit_status := 3; stdout := []; stderr := []; ocr_calls := [sample_kwargs] |}.
Proof. vm_compute. reflexivity. Qed.

Lemma blank_page_num_rejected_witness :
  argv_page_blank !! 2%nat = Some (lit "  ") /\
  lit "  " <> [] /\
  forallb Py_ISSPACE (lit "  ") = true /\
  exit_status (run sample_py argv_page_blank sample_environ (ocr_returning sample_markdown)) = 1%Z /\
  ocr_calls (run sample_py argv_page_blank sample_environ (ocr_returning sample_markdown)) = [] /\
  stdout (run sample_py argv_page_blank sample_environ (ocr_returning sample_markdown)) = [] /\
  stderr (run sample_py argv_page_blank sample_environ (ocr_returning sample_markdown))
  = lit "invalid literal for int() with base 10: " ++ take 200 (repr sample_py (lit "  ")) ++ [LF].
Proof.
  split; [reflexivity |]. split; [discriminate |]. split; [reflexivity |].
  apply (blank_page_num_rejected sample_py argv_page_blank sample_environ
           (ocr_returning sample_markdown) (lit "  "));
    [reflexivity | discriminate | reflexivity].
Defined.

Lemma padded_page_num_accepted_witness :
  argv_page_padded !! 1%nat = Some (lit "scan.pdf") /\
  argv_page_padded !! 2%nat = Some (lit " " ++ lit "+12" ++ [LF]) /\
  forallb Py_ISSPACE (lit " ") = true /\
  forallb Py_ISSPACE [LF] = true /\
  is_decimal (lit "+12") = true /\
  within_str_digits_limit sample_py (lit "+12") /\
  decimal_value (lit "+12") = 12%Z /\
  exists kw, ocr_calls (run sample_py argv_page_padded sample_environ
                          (ocr_returning sample_markdown)) = [kw] /\
             kw !! "page_num" = Some (VInt (decimal_value (lit "+12"))) /\
             kw !! "pdf_or_image_path" = Some (VStr (lit "scan.pdf")).
Proof.
  assert (within_str_digits_limit sample_py (lit "+12")) as Hlim.
  { right. vm_compute. discriminate. }
  split; [reflexivity |]. split; [reflexivity |]. split; [reflexivity |].
  split; [reflexivity |]. split; [reflexivity |]. split; [exact Hlim |].
  split; [reflexivity |].
  apply (padded_page_num_accepted sample_py argv_page_padded sample_environ
           (ocr_returning sample_markdown) (lit "scan.pdf") (lit " ") (lit "+12") [LF]);
    [reflexivity | reflexivity | reflexivity | reflexivity | reflexivity | exact Hlim].
Defined.

Lemma sample_call_path_only :
  ocr_calls (run sample_py argv_path_only sample_environ (ocr_returning sample_markdown))
  = [sample_kwargs].
Proof. vm_compute. reflexivity. Qed.

Lemma markdown_recoverable_witness :
  sample_kwargs_page 3 ∈ ocr_calls (run sample_py argv_page_3 sample_environ
                                      (ocr_returning sample_markdown)) /\
  ocr_returning sample_markdown (sample_kwargs_page 3) = Returns sample_markdown /\
  sample_kwargs ∈ ocr_calls (run sample_py argv_path_only sample_environ
                               (ocr_returning sample_markdown)) /\
  ocr_returning sample_markdown sample_kwargs = Returns sample_markdown /\
  Forall (fun c => is_scalar_value c = true) sample_markdown /\
  stdout (run sample_py argv_page_3 sample_environ (ocr_returning sample_markdown))
  = stdout (run sample_py argv_path_only sample_environ (ocr_returning sample_markdown)) /\
  sample_markdown = sample_markdown.
Proof.
  assert (sample_kwargs_page 3 ∈ ocr_calls (run sample_py argv_page_3 sample_environ
                                             (ocr_returning sample_markdown))) as Hin.
  { rewrite sample_call_page_3. apply list_elem_of_here. }
  assert (sample_kwargs ∈ ocr_calls (run sample_py argv_path_only sample_environ
                                       (ocr_returning sample_markdown))) as Hin'.
  { rewrite sample_call_path_only. apply list_elem_of_here. }
  assert (Forall (fun c => is_scalar_value c = true) sample_markdown) as Hsc.
  { repeat constructor. }
  assert (stdout (run sample_py argv_page_3 sample_environ (ocr_returning sample_markdown))
          = stdout (run sample_py argv_path_only sample_environ
                      (ocr_returning sample_markdown))) as Hout.
  { vm_compute. reflexivity. }
  split; [exact Hin |]. split; [reflexivity |]. split; [exact Hin' |].
  split; [reflexivity |]. split; [exact Hsc |]. split; [exact Hout |].
  exact (markdown_recoverable sample_py argv_page_3 sample_environ
           (ocr_returning sample_markdown) (sample_kwargs_page 3) sample_markdown
           sample_py argv_path_only sample_environ
           (ocr_returning sample_markdown) sample_kwargs sample_markdown
           Hin eq_refl Hin' eq_refl Hsc Hsc Hout).
Defined.
